(** * hello-bott: command dispatch of the Manager and the Message helper

    A shallow embedding of the class [Manager] and of the class [Message]
    ([libs/Message.js]), and the properties of command dispatch, message
    normalisation, module registration and error rendering that hold of
    them. *)

From Stdlib Require Import ZArith Ascii String List Lia Bool.
From stdpp Require Import base option strings gmap.

Local Open Scope Z_scope.
#[local] Arguments String.append : simpl nomatch.

(** ** JavaScript strings

    A string is a sequence of code units; the case mapping and the white
    space of the ASCII range are modelled.  Indices are [Z], as [indexOf]
    answers [-1] when there is no occurrence. *)
Module Js.

Definition strlen (s : string) : Z := Z.of_nat (String.length s).

(** [s.indexOf(needle)], searched from the left; [i] is the index of the
    first code unit of [s] in the original string. *)
Fixpoint indexOf_from (needle s : string) (i : Z) : Z :=
  if String.prefix needle s then i
  else match s with
       | EmptyString => -1
       | String _ s' => indexOf_from needle s' (i + 1)
       end.

Definition indexOf (needle s : string) : Z := indexOf_from needle s 0.

(** [s.substr(start, length)]: a negative [start] counts from the end, the
    length is clamped to what is left, and a negative length gives the
    empty string. *)
Definition substr (start len : Z) (s : string) : string :=
  let size := strlen s in
  let from := if start <? 0 then Z.max (size + start) 0 else Z.min start size in
  let n := Z.min (Z.max len 0) (size - from) in
  String.substring (Z.to_nat from) (Z.to_nat n) s.

(** [s.substr(start)]: up to the end of [s]. *)
Definition substr_from (start : Z) (s : string) : string :=
  substr start (strlen s) s.

(** [s[0]]: [undefined] ([None]) on the empty string. *)
Definition first_char (s : string) : option ascii :=
  match s with
  | EmptyString => None
  | String c _ => Some c
  end.

Definition is_white_space (c : ascii) : bool := Ascii.is_space c.

Fixpoint trimStart (s : string) : string :=
  match s with
  | EmptyString => EmptyString
  | String c s' => if is_white_space c then trimStart s' else s
  end.

Fixpoint trimEnd (s : string) : string :=
  match s with
  | EmptyString => EmptyString
  | String c s' =>
      match trimEnd s' with
      | EmptyString => if is_white_space c then EmptyString else String c EmptyString
      | r => String c r
      end
  end.

Definition trim (s : string) : string := trimEnd (trimStart s).

Definition lower_char (c : ascii) : ascii :=
  let n := nat_of_ascii c in
  if ((65 <=? n)%nat && (n <=? 90)%nat) then ascii_of_nat (n + 32) else c.

Fixpoint toLowerCase (s : string) : string :=
  match s with
  | EmptyString => EmptyString
  | String c s' => String (lower_char c) (toLowerCase s')
  end.

(** Whether the space character occurs in [s]. *)
Fixpoint has_space (s : string) : bool :=
  match s with
  | EmptyString => false
  | String c s' => Ascii.eqb c " " || has_space s'
  end.

(** A string is falsy exactly when it is empty: [a || b]. *)
Definition or_else (a b : string) : string :=
  match a with
  | EmptyString => b
  | _ => a
  end.

End Js.

(** ** Data model *)

(** An error object: the Manager looks at [name] and [message] only. *)
Record JsError := { name : string; message : string }.

Definition LeakableBotError (text : string) : JsError :=
  {| name := "LeakableBotError"; message := text |}.

Definition TypeError (text : string) : JsError :=
  {| name := "TypeError"; message := text |}.

Definition Error (text : string) : JsError :=
  {| name := "Error"; message := text |}.

(** How a synchronous piece of code completes. *)
Inductive Completion (A : Type) : Type :=
| Normal (a : A)
| Throw (err : JsError).
Arguments Normal {A} a.
Arguments Throw {A} err.

(** The inbound message of the transport: [{text, user, channel}]. *)
Module SlackMessage.
Record t := { text : string; user : string; channel : string }.
Definition with_text (msg : t) (new_text : string) : t :=
  {| text := new_text; user := user msg; channel := channel msg |}.
End SlackMessage.

(** The bot handle: its own id and its table of known channels (its owner
    is read for the debug log only). *)
Module Bot.
Record t := { id : string; channels : gmap string string }.
End Bot.

(** The documents the Manager hands to the Workday model. *)
Module Interval.
Record t := { begin : Z; end_ : option Z; description : string }.
End Interval.

Module Workday.
Record t :=
  { slackId : string; begin : Z; end_ : option Z; intervals : list Interval.t }.
End Workday.

(** The Workday model ([../models/workday]) is a collaborator of the
    Manager: the operations the handlers await, over an abstract store.
    A query answers with an error or a value, an update with an error or
    the new store; the methods of a workday document take the time of the
    call. *)
Class WorkdayModel (Store : Type) : Type :=
  { isLastDayEnded : string -> Store -> Completion unit;
    save : Workday.t -> Store -> Completion Store;
    getLastWorkdayByUser : string -> Store -> Completion (option Workday.t);
    giveBreak : Z -> Workday.t -> Store -> Completion Store;
    continueDay : Z -> string -> Workday.t -> Store -> Completion Store;
    endDay : Z -> Workday.t -> Store -> Completion Store }.

(** The built-in command handlers of the Manager. *)
Inductive Builtin : Type := BStart | BBreak | BContinue | BEnd.

(** What a property access on the Manager can find: one of the four
    handlers, another function, or a value that cannot be called. *)
Inductive Member : Type :=
| Handler (b : Builtin)
| Method
| Property.

(** What the Manager does to the outside, in order. *)
Inductive Event : Type :=
| SendMessage (text channel : string)
| ModuleDispatch (command : string) (msg : SlackMessage.t) (user : string)
| SelfLookup (command : string) (found : option Member)
| AwaitIsLastDayEnded (slackId : string)
| AwaitSave (workday : Workday.t)
| AwaitGetLastWorkdayByUser (slackId : string)
| AwaitGiveBreak (workday : Workday.t)
| AwaitContinueDay (workday : Workday.t) (text : string)
| AwaitEndDay (workday : Workday.t).

(** An external command module.  The field is [None] when the property
    [dispatchCommand] is absent or falsy, which is what the constructor
    tests.  A function may update the store and send messages of its own;
    it returns, throws, or answers with a promise that rejects.  A truthy
    value that is no function is [not_callable]. *)
Module CommandModule.
Inductive Settled : Type :=
| Returned
| Thrown (err : JsError)
| Rejected (err : JsError).

Record Outcome (Store : Type) : Type :=
  { store_after : Store; sent : list (string * string); settled : Settled }.
Arguments store_after {Store} _.
Arguments sent {Store} _.
Arguments settled {Store} _.

Record t (Store : Type) : Type :=
  { dispatchCommand : option (SlackMessage.t -> string -> Store -> Outcome Store) }.
Arguments dispatchCommand {Store} _.

(** The call of a truthy [dispatchCommand] that is no function (a number,
    a string, an object): the TypeError of the call, before anything
    runs. *)
Definition not_callable {Store : Type} : SlackMessage.t -> string -> Store -> Outcome Store :=
  fun _ _ st =>
    {| store_after := st; sent := [];
       settled := Thrown (TypeError "this.commands[command].dispatchCommand is not a function") |}.

(** A module has the capability when the property is there. *)
Definition capable {Store : Type} (module : t Store) : Prop :=
  is_Some (dispatchCommand module).
End CommandModule.

(** The members every object inherits from [Object.prototype]. *)
Definition object_members : list (string * Member) :=
  [ ("constructor", Method); ("__defineGetter__", Method);
    ("__defineSetter__", Method); ("hasOwnProperty", Method);
    ("__lookupGetter__", Method); ("__lookupSetter__", Method);
    ("isPrototypeOf", Method); ("propertyIsEnumerable", Method);
    ("toString", Method); ("valueOf", Method); ("__proto__", Property);
    ("toLocaleString", Method) ].

Fixpoint lookup_member (table : list (string * Member)) (key : string) : option Member :=
  match table with
  | [] => None
  | (k, v) :: rest => if String.eqb k key then Some v else lookup_member rest key
  end.

(** ** The Manager *)
Module Manager.
Section WithStore.
Context {Store : Type} `{!WorkdayModel Store}.

Record World : Type := { trace : list Event; store : Store; clock : Z }.

Definition log (ev : Event) (w : World) : World :=
  {| trace := trace w ++ [ev]; store := store w; clock := clock w |}.

Definition log_all (evs : list Event) (w : World) : World :=
  {| trace := trace w ++ evs; store := store w; clock := clock w |}.

Definition set_store (st : Store) (w : World) : World :=
  {| trace := trace w; store := st; clock := clock w |}.

(** Code that runs on the world and completes normally or throws. *)
Definition Action (A : Type) : Type := World -> World * Completion A.

Definition throw {A : Type} (err : JsError) : Action A := fun w => (w, Throw err).

Definition bind {A B : Type} (act : Action A) (k : A -> Action B) : Action B :=
  fun w =>
    match act w with
    | (w', Normal a) => k a w'
    | (w', Throw err) => (w', Throw err)
    end.

Notation "'let!' x ':=' a 'in' k" := (bind a (fun x => k))
  (at level 10, x pattern, a at level 100, k at level 200).

(** [try { body } catch (err) { handler }], for a handler that does not throw. *)
Definition try_catch (body : Action unit) (handler : JsError -> World -> World) : World -> World :=
  fun w =>
    match body w with
    | (w', Normal _) => w'
    | (w', Throw err) => handler err w'
    end.

(** [await] on a query and on an update of the Workday model. *)
Definition await_query {A : Type} (ev : Event) (query : Store -> Completion A) : Action A :=
  fun w => (log ev w, query (store w)).

Definition await_update (ev : Event) (update : Store -> Completion Store) : Action unit :=
  fun w =>
    match update (store w) with
    | Normal st => (set_store st (log ev w), Normal tt)
    | Throw err => (log ev w, Throw err)
    end.

Record t : Type := { bot : Bot.t; commands : gmap string (CommandModule.t Store) }.

(** [constructor(bot, commandModules)]: [commandModules] is absent or the
    entries of the collection in the order [_.forEach] visits them. *)
Definition no_dispatchCommand : JsError :=
  Error "Module does not have dispatchCommand() method.".

Fixpoint register (entries : list (string * CommandModule.t Store))
    (commands : gmap string (CommandModule.t Store))
    : Completion (gmap string (CommandModule.t Store)) :=
  match entries with
  | [] => Normal commands
  | (key, module) :: rest =>
      match CommandModule.dispatchCommand module with
      | Some _ => register rest (<["_" +:+ key := module]> commands)
      | None => Throw no_dispatchCommand
      end
  end.

Definition constructor (bot : Bot.t)
    (commandModules : option (list (string * CommandModule.t Store))) : Completion t :=
  match commandModules with
  | None => Normal {| bot := bot; commands := ∅ |}
  | Some entries =>
      match register entries ∅ with
      | Normal commands => Normal {| bot := bot; commands := commands |}
      | Throw err => Throw err
      end
  end.

(** [send(message, channel)]: [bot.channels[channel] || channel]. *)
Definition send (this : t) (message channel : string) (w : World) : World :=
  log (SendMessage message
         (Js.or_else (default "" (Bot.channels (bot this) !! channel)) channel)) w.

(** [send] as a statement of a [try] block. *)
Definition say (this : t) (message channel : string) : Action unit :=
  fun w => (send this message channel w, Normal tt).

(** The [catch] block every handler shares. *)
Definition errorMessage (err : JsError) : string :=
  if String.eqb (name err) "LeakableBotError" then message err else "problems captain!".

Definition catch_reply (this : t) (user channel : string) (err : JsError) : World -> World :=
  send this ("<@" +:+ user +:+ ">, " +:+ errorMessage err) channel.

(** A method call on the document [getLastWorkdayByUser] resolved to. *)
Definition on_workday {A : Type} (method : string) (lastWorkday : option Workday.t)
    (call : Workday.t -> Action A) : Action A :=
  match lastWorkday with
  | Some workday => call workday
  | None => throw (TypeError ("Cannot read property '" +:+ method +:+ "' of null"))
  end.

(** The [try] blocks of the four handlers. *)
Definition start_try (this : t) (text slackId channel : string) : Action unit :=
  let! _ := await_query (AwaitIsLastDayEnded slackId) (isLastDayEnded slackId) in
  fun w =>
    let now := clock w in
    let newWorkday :=
      {| Workday.slackId := slackId; Workday.begin := now; Workday.end_ := None;
         Workday.intervals :=
           [ {| Interval.begin := now; Interval.end_ := None;
                Interval.description := text |} ] |} in
    (let! _ := await_update (AwaitSave newWorkday) (save newWorkday) in
     say this ("<@" +:+ slackId +:+ ">'s workday is just started with " +:+ text +:+ ".")
       channel) w.

Definition break_try (this : t) (text slackId channel : string) : Action unit :=
  let! lastWorkday :=
    await_query (AwaitGetLastWorkdayByUser slackId) (getLastWorkdayByUser slackId) in
  let! _ := on_workday "giveBreak" lastWorkday (fun workday w =>
    await_update (AwaitGiveBreak workday) (giveBreak (clock w) workday) w) in
  say this ("<@" +:+ slackId +:+ "> is giving a break. (" +:+ text +:+ ")") channel.

Definition continue_try (this : t) (text slackId channel : string) : Action unit :=
  let! lastWorkday :=
    await_query (AwaitGetLastWorkdayByUser slackId) (getLastWorkdayByUser slackId) in
  let! _ := on_workday "continueDay" lastWorkday (fun workday w =>
    await_update (AwaitContinueDay workday text) (continueDay (clock w) text workday) w) in
  say this ("<@" +:+ slackId +:+ ">'s workday continues with " +:+ text +:+ ".") channel.

Definition end_try (this : t) (text slackId channel : string) : Action unit :=
  let! lastWorkday :=
    await_query (AwaitGetLastWorkdayByUser slackId) (getLastWorkdayByUser slackId) in
  let! _ := on_workday "endDay" lastWorkday (fun workday w =>
    await_update (AwaitEndDay workday) (endDay (clock w) workday) w) in
  say this ("End of the workday for <@" +:+ slackId +:+ ">.") channel.

Definition builtin_try (b : Builtin) : t -> string -> string -> string -> Action unit :=
  match b with
  | BStart => start_try
  | BBreak => break_try
  | BContinue => continue_try
  | BEnd => end_try
  end.

Definition _start (this : t) (text slackId channel : string) : World -> World :=
  try_catch (start_try this text slackId channel) (catch_reply this slackId channel).

Definition _break (this : t) (text slackId channel : string) : World -> World :=
  try_catch (break_try this text slackId channel) (catch_reply this slackId channel).

Definition _continue (this : t) (text slackId channel : string) : World -> World :=
  try_catch (continue_try this text slackId channel) (catch_reply this slackId channel).

Definition _end (this : t) (text slackId channel : string) : World -> World :=
  try_catch (end_try this text slackId channel) (catch_reply this slackId channel).

Definition builtin (b : Builtin) : t -> string -> string -> string -> World -> World :=
  match b with
  | BStart => _start
  | BBreak => _break
  | BContinue => _continue
  | BEnd => _end
  end.

(** [this[key]] on a Manager: its own fields, then the members of the
    class, then what every object inherits. *)
Definition own_members : list (string * Member) :=
  [ ("bot", Property); ("commands", Property) ].

Definition class_members : list (string * Member) :=
  [ ("constructor", Method); ("listen", Method); ("dispatchCommand", Method);
    ("_start", Handler BStart); ("_break", Handler BBreak);
    ("_continue", Handler BContinue); ("_end", Handler BEnd); ("send", Method) ].

Definition this_get (key : string) : option Member :=
  lookup_member (own_members ++ class_members ++ object_members) key.

(** [this.commands[key]]: a registered module, or what the object literal
    inherits. *)
Inductive Slot : Type :=
| Registered (module : CommandModule.t Store)
| Inherited (member : Member)
| Undefined.

Definition commands_get (this : t) (key : string) : Slot :=
  match commands this !! key with
  | Some module => Registered module
  | None =>
      match lookup_member object_members key with
      | Some member => Inherited member
      | None => Undefined
      end
  end.

(** The locals [command] and [text] of [dispatchCommand]. *)
Definition command_of (text : string) : string :=
  "_" +:+ Js.or_else (Js.substr 0 (Js.indexOf " " text) text) text.

Definition text_of (text : string) : string :=
  if Js.indexOf " " text =? -1 then ""
  else Js.substr_from (Js.indexOf " " text + 1) text.

Definition not_a_function (what : string) : JsError :=
  TypeError (what +:+ " is not a function").

(** The call of a module's [dispatchCommand]: a rejected promise is handed
    back to the caller and is no exception of the [try] block. *)
Definition call_module (command : string) (module : CommandModule.t Store)
    (msg : SlackMessage.t) : Action unit :=
  match CommandModule.dispatchCommand module with
  | None => throw (not_a_function "this.commands[command].dispatchCommand")
  | Some handler =>
      fun w =>
        let user := SlackMessage.user msg in
        let out := handler msg user (store w) in
        let w' :=
          log_all (map (fun m => SendMessage (fst m) (snd m)) (CommandModule.sent out))
            (set_store (CommandModule.store_after out)
               (log (ModuleDispatch command msg user) w)) in
        match CommandModule.settled out with
        | CommandModule.Thrown err => (w', Throw err)
        | CommandModule.Returned | CommandModule.Rejected _ => (w', Normal tt)
        end
  end.

(** [this[command](text || '', message.user, message.channel)]: a handler
    runs with its own [try]/[catch]; the effects of the other function
    members are left out of the model, as no command key reaches them. *)
Definition call_self (this : t) (command text user channel : string) : Action unit :=
  fun w =>
    let found := this_get command in
    let w' := log (SelfLookup command found) w in
    match found with
    | Some (Handler b) => (builtin b this (Js.or_else text "") user channel w', Normal tt)
    | Some Method => (w', Normal tt)
    | Some Property | None => (w', Throw (not_a_function "this[command]"))
    end.

(** The [try] block of [dispatchCommand]. *)
Definition dispatch_try (this : t) (msg : SlackMessage.t) : Action unit :=
  let command := command_of (SlackMessage.text msg) in
  let text := text_of (SlackMessage.text msg) in
  match commands_get this command with
  | Registered module => call_module command module (SlackMessage.with_text msg text)
  | Inherited _ => throw (not_a_function "this.commands[command].dispatchCommand")
  | Undefined =>
      call_self this command text (SlackMessage.user msg) (SlackMessage.channel msg)
  end.

Definition dispatchCommand (this : t) (msg : SlackMessage.t) : World -> World :=
  try_catch (dispatch_try this msg)
    (catch_reply this (SlackMessage.user msg) (SlackMessage.channel msg)).

(** The listener [listen()] installs, run on one inbound message. *)
Definition mention (this : t) : string := "<@" +:+ Bot.id (bot this) +:+ ">".

Definition char_is (c : option ascii) (expected : ascii) : bool :=
  match c with
  | Some c' => Ascii.eqb c' expected
  | None => false
  end.

Definition strip_mention (this : t) (text : string) : string :=
  let messageText := Js.trim text in
  if Js.indexOf (mention this) text =? 0
  then Js.substr_from (Js.indexOf " " messageText + 1) messageText
  else messageText.

Definition listen (this : t) (msg : SlackMessage.t) (w : World) : World :=
  let first := Js.first_char (SlackMessage.channel msg) in
  if negb (char_is first "C") && negb (char_is first "D") then w
  else
    dispatchCommand this
      (SlackMessage.with_text msg (strip_mention this (SlackMessage.text msg))) w.

(** The errors the five [catch] blocks receive: [Caught this err user
    channel w w'] when a [try] block run for [user] on [channel] threw [err]
    in world [w], and [w'] is the world the handler leaves. *)
Inductive Caught (this : t) : JsError -> string -> string -> World -> World -> Prop :=
| caught_dispatching (msg : SlackMessage.t) (w w' : World) (err : JsError) :
    dispatch_try this msg w = (w', Throw err) ->
    Caught this err (SlackMessage.user msg) (SlackMessage.channel msg) w'
      (dispatchCommand this msg w)
| caught_handling (b : Builtin) (text slackId channel : string) (w w' : World)
    (err : JsError) :
    builtin_try b this text slackId channel w = (w', Throw err) ->
    Caught this err slackId channel w' (builtin b this text slackId channel w).

(** [w'] is [w] after some more events, all of them in [P]. *)
Definition grows (P : Event -> Prop) (w w' : World) : Prop :=
  exists evs, trace w' = trace w ++ evs /\ Forall P evs.

Definition act_grows {A : Type} (P : Event -> Prop) (act : Action A) : Prop :=
  forall w, grows P w (fst (act w)).

End WithStore.
Arguments World : clear implicits.
Arguments Action : clear implicits.
Arguments t : clear implicits.
End Manager.

(** ** The Message helper ([libs/Message.js]) *)
Module Message.

Record t : Type :=
  { messageObject : SlackMessage.t; text : string; command : string; user : string }.

Definition constructor (slackMessage : SlackMessage.t) : t :=
  {| messageObject := slackMessage; text := SlackMessage.text slackMessage;
     command := ""; user := SlackMessage.user slackMessage |}.

(** [extractCommand()]: the pair it returns; the same two values are stored
    in the fields [command] and [text]. *)
Definition extractCommand (this : t) : t * (string * string) :=
  let raw := SlackMessage.text (messageObject this) in
  let command :=
    "_" +:+ Js.toLowerCase (Js.or_else (Js.substr 0 (Js.indexOf " " raw) raw) raw) in
  let text :=
    if Js.indexOf " " raw =? -1 then ""
    else Js.substr_from (Js.indexOf " " raw + 1) raw in
  ({| messageObject := messageObject this; text := text; command := command;
      user := user this |}, (command, text)).

(** [throw(error)]: the text and the channel it passes to [this.send], a
    member the class leaves to its host. *)
Definition throw (this : t) (error : JsError) : string * string :=
  let returnText :=
    if String.eqb (name error) "TypeError"
    then "<@" +:+ user this +:+ ">, command '" +:+ command this +:+ "' does not exist."
    else if String.eqb (name error) "LeakableBotError"
    then "<@" +:+ user this +:+ ">, " +:+ message error
    else "Problems captain!" in
  ("<@" +:+ user this +:+ ">," +:+ Js.toLowerCase returnText,
   SlackMessage.channel (messageObject this)).

End Message.

(** ** A Workday model after the specification

    The Manager's handlers are proved against any [WorkdayModel]; this one
    gives the examples a store to run on. *)
Module SessionLog.

(** Modelled from the spec: the Workday model ([../models/workday]) is not
    among the sources.  Sessions are kept in an append-only log, one record
    per [start]; the last record of an owner is that owner's session. *)
Definition Store : Type := list Workday.t.

Fixpoint last_of (owner : string) (log : Store) : option Workday.t :=
  match log with
  | [] => None
  | workday :: rest =>
      match last_of owner rest with
      | Some later => Some later
      | None => if String.eqb (Workday.slackId workday) owner then Some workday else None
      end
  end.

Fixpoint replace_last (updated : Workday.t) (log : Store) : Store :=
  match log with
  | [] => []
  | workday :: rest =>
      match last_of (Workday.slackId updated) rest with
      | Some _ => workday :: replace_last updated rest
      | None =>
          if String.eqb (Workday.slackId workday) (Workday.slackId updated)
          then updated :: rest else workday :: rest
      end
  end.

(** Modelled from the spec: "is last session for owner ended or absent";
    an open session fails the check with [SessionAlreadyOpen]. *)
Definition isLastDayEnded (owner : string) (log : Store) : Completion unit :=
  match last_of owner log with
  | Some {| Workday.end_ := None |} => Throw (LeakableBotError "SessionAlreadyOpen")
  | _ => Normal tt
  end.

(** Modelled from the spec: [save] adds one persisted record. *)
Definition save (workday : Workday.t) (log : Store) : Completion Store :=
  Normal (log ++ [workday])%list.

(** Modelled from the spec: the session of an owner, [NoOpenSession] when
    there is none. *)
Definition getLastWorkdayByUser (owner : string) (log : Store)
    : Completion (option Workday.t) :=
  match last_of owner log with
  | Some workday => Normal (Some workday)
  | None => Throw (LeakableBotError "NoOpenSession")
  end.

Definition close_at (now : Z) (interval : Interval.t) : Interval.t :=
  match Interval.end_ interval with
  | Some _ => interval
  | None =>
      {| Interval.begin := Interval.begin interval; Interval.end_ := Some now;
         Interval.description := Interval.description interval |}
  end.

Definition open_interval (now : Z) (description : string) : Interval.t :=
  {| Interval.begin := now; Interval.end_ := None; Interval.description := description |}.

Definition on_break (workday : Workday.t) : bool :=
  match List.last (map Some (Workday.intervals workday)) None with
  | Some interval =>
      String.eqb (Interval.description interval) "break"
      && negb (bool_decide (is_Some (Interval.end_ interval)))
  | None => false
  end.

Definition turn_over (now : Z) (description : string) (ended : option Z)
    (workday : Workday.t) : Workday.t :=
  {| Workday.slackId := Workday.slackId workday; Workday.begin := Workday.begin workday;
     Workday.end_ := ended;
     Workday.intervals :=
       (map (close_at now) (Workday.intervals workday)
          ++ match ended with
             | Some _ => []
             | None => [open_interval now description]
             end)%list |}.

(** Modelled from the spec: [giveBreak] needs an open session that is not
    on a break; it closes the open interval and opens a break. *)
Definition giveBreak (now : Z) (workday : Workday.t) (log : Store) : Completion Store :=
  match Workday.end_ workday with
  | Some _ => Throw (LeakableBotError "NoOpenSession")
  | None =>
      if on_break workday then Throw (LeakableBotError "AlreadyOnBreak")
      else Normal (replace_last (turn_over now "break" None workday) log)
  end.

(** Modelled from the spec: [continueDay] resumes a session that is on a
    break or was ended, and fails when it is already working. *)
Definition continueDay (now : Z) (description : string) (workday : Workday.t)
    (log : Store) : Completion Store :=
  match Workday.end_ workday with
  | Some _ => Normal (replace_last (turn_over now description None workday) log)
  | None =>
      if on_break workday
      then Normal (replace_last (turn_over now description None workday) log)
      else Throw (LeakableBotError "NoOpenSession")
  end.

(** Modelled from the spec: [endDay] closes the open interval of an open
    session and sets its end. *)
Definition endDay (now : Z) (workday : Workday.t) (log : Store) : Completion Store :=
  match Workday.end_ workday with
  | Some _ => Throw (LeakableBotError "NoOpenSession")
  | None => Normal (replace_last (turn_over now "" (Some now) workday) log)
  end.

#[global] Instance model : WorkdayModel Store :=
  Build_WorkdayModel Store isLastDayEnded save getLastWorkdayByUser giveBreak
    continueDay endDay.

End SessionLog.

(** ** The Message Normalizer in the words of the specification

    "Split the text on the first whitespace run: the leading token
    (lower-cased) becomes the command key; the remainder becomes argument
    text." *)
Module Normalizer.

Fixpoint leading_token (text : string) : string :=
  match text with
  | EmptyString => EmptyString
  | String c rest =>
      if Js.is_white_space c then EmptyString else String c (leading_token rest)
  end.

Fixpoint remainder (text : string) : string :=
  match text with
  | EmptyString => EmptyString
  | String c rest => if Js.is_white_space c then Js.trimStart rest else remainder rest
  end.

Definition split (text : string) : string * string :=
  (Js.toLowerCase (leading_token text), remainder text).

End Normalizer.

(** ** Events of the self-lookup *)

Definition unprefixed_members : list string :=
  [ "send"; "listen"; "dispatchCommand"; "bot"; "commands" ].

Definition not_lookup (ev : Event) : Prop :=
  match ev with
  | SelfLookup _ _ => False
  | _ => True
  end.

(** A self-lookup under a key that begins with an underscore, finding a
    handler or nothing. *)
Definition underscore_lookup (ev : Event) : Prop :=
  match ev with
  | SelfLookup command found =>
      String.prefix "_" command = true
      /\ ~ In command unprefixed_members
      /\ (found = None \/ exists b, found = Some (Handler b))
  | _ => True
  end.

(** ** A bot, a Manager and modules to run the model on *)
Module Sample.

Definition bot : Bot.t := {| Bot.id := "B0"; Bot.channels := ∅ |}.

Definition manager : Manager.t SessionLog.Store :=
  {| Manager.bot := bot; Manager.commands := ∅ |}.

Definition world : Manager.World SessionLog.Store :=
  {| Manager.trace := []; Manager.store := []; Manager.clock := 10 |}.

Definition message (text user channel : string) : SlackMessage.t :=
  {| SlackMessage.text := text; SlackMessage.user := user;
     SlackMessage.channel := channel |}.

(** A module that answers on the channel and returns. *)
Definition echo : CommandModule.t SessionLog.Store :=
  {| CommandModule.dispatchCommand :=
       Some (fun msg user st =>
               {| CommandModule.store_after := st;
                  CommandModule.sent :=
                    [ (SlackMessage.text msg, SlackMessage.channel msg) ];
                  CommandModule.settled := CommandModule.Returned |}) |}.

(** A module whose [dispatchCommand] throws. *)
Definition faulty (err : JsError) : CommandModule.t SessionLog.Store :=
  {| CommandModule.dispatchCommand :=
       Some (fun msg user st =>
               {| CommandModule.store_after := st; CommandModule.sent := [];
                  CommandModule.settled := CommandModule.Thrown err |}) |}.

(** A module without [dispatchCommand]. *)
Definition bare : CommandModule.t SessionLog.Store :=
  {| CommandModule.dispatchCommand := None |}.

(** A module whose [dispatchCommand] is the number 42, and the Manager the
    constructor makes of it under the key [ping]. *)
Definition misbuilt : CommandModule.t SessionLog.Store :=
  {| CommandModule.dispatchCommand := Some CommandModule.not_callable |}.

Definition trusting : Manager.t SessionLog.Store :=
  {| Manager.bot := bot; Manager.commands := <[ "_ping" := misbuilt ]> ∅ |}.

(** Two messages of one user that differ in the command. *)
Definition asked (command : string) : Message.t :=
  {| Message.messageObject := message command "U1" "D1"; Message.text := "";
     Message.command := command; Message.user := "U1" |}.

(** A Manager with a module [ping] that throws a domain error, and one
    with a module named like the built-in [start]. *)
Definition refusal : JsError := LeakableBotError "Not today".

Definition guarded : Manager.t SessionLog.Store :=
  {| Manager.bot := bot; Manager.commands := {[ "_ping" := faulty refusal ]} |}.

Definition shadowing : Manager.t SessionLog.Store :=
  {| Manager.bot := bot; Manager.commands := <[ "_start" := echo ]> ∅ |}.

(** The world after [U1] started a workday. *)
Definition started : Manager.World SessionLog.Store :=
  Manager._start manager "design" "U1" "D1" world.

(** A module whose [dispatchCommand] answers with a promise that rejects. *)
Definition rejecting (err : JsError) : CommandModule.t SessionLog.Store :=
  {| CommandModule.dispatchCommand :=
       Some (fun msg user st =>
               {| CommandModule.store_after := st; CommandModule.sent := [];
                  CommandModule.settled := CommandModule.Rejected err |}) |}.

Definition deferring : Manager.t SessionLog.Store :=
  {| Manager.bot := bot; Manager.commands := {[ "_ping" := rejecting refusal ]} |}.

(** A Workday model whose collection is empty: the last workday of every
    owner is [null]. *)
Definition nobody : WorkdayModel unit :=
  Build_WorkdayModel unit
    (fun _ _ => Normal tt)
    (fun _ st => Normal st)
    (fun _ _ => Normal None)
    (fun _ _ _ => Throw (Error "no document"))
    (fun _ _ _ _ => Throw (Error "no document"))
    (fun _ _ _ => Throw (Error "no document")).

Definition lonely : Manager.t unit := {| Manager.bot := bot; Manager.commands := ∅ |}.

Definition nowhere : Manager.World unit :=
  {| Manager.trace := []; Manager.store := tt; Manager.clock := 10 |}.

End Sample.

(** ** Notions for the handlers and the listener *)

(** The word that reaches a built-in handler. *)
Definition builtin_name (b : Builtin) : string :=
  match b with
  | BStart => "start"
  | BBreak => "break"
  | BContinue => "continue"
  | BEnd => "end"
  end.

(** The channel [send] hands to the transport:
    [bot.channels[channel] || channel]. *)
Definition target (bot : Bot.t) (channel : string) : string :=
  Js.or_else (default "" (Bot.channels bot !! channel)) channel.

(** The events of the Workday model. *)
Definition is_await (ev : Event) : Prop :=
  match ev with
  | SendMessage _ _ | ModuleDispatch _ _ _ | SelfLookup _ _ => False
  | _ => True
  end.

(** A text of white space only. *)
Fixpoint blank (s : string) : bool :=
  match s with
  | EmptyString => true
  | String c s' => Js.is_white_space c && blank s'
  end.

(** ** Facts about the string operations *)
Section StringFacts.

Lemma strlen_append (a b : string) : Js.strlen (a +:+ b) = Js.strlen a + Js.strlen b.
Proof.
  unfold Js.strlen. induction a as [|c a IH]; cbn [String.append String.length].
  - lia.
  - rewrite !Nat2Z.inj_succ. lia.
Qed.

Lemma strlen_nonneg (s : string) : 0 <= Js.strlen s.
Proof. unfold Js.strlen. lia. Qed.

Lemma append_assoc (a b c : string) : (a +:+ b) +:+ c = a +:+ b +:+ c.
Proof. induction a as [|x a IH]; simpl; [reflexivity | now rewrite IH]. Qed.

Lemma prefix_empty (s : string) : String.prefix "" s = true.
Proof. destruct s; reflexivity. Qed.

Lemma prefix_space (c : ascii) (s : string) :
  String.prefix " " (String c s) = Ascii.eqb c " ".
Proof.
  cbn [String.prefix]. destruct (ascii_dec " " c) as [<-|Hne].
  - now rewrite prefix_empty, Ascii.eqb_refl.
  - symmetry. apply Ascii.eqb_neq. congruence.
Qed.

Lemma indexOf_from_no_space (s : string) (i : Z) :
  Js.has_space s = false -> Js.indexOf_from " " s i = -1.
Proof.
  revert i. induction s as [|c s IH]; intros i Hs; [reflexivity|].
  simpl in Hs. apply orb_false_iff in Hs as [Hc Hs].
  cbn [Js.indexOf_from]. rewrite prefix_space, Hc. now apply IH.
Qed.

Lemma indexOf_from_first_space (tok rest : string) (i : Z) :
  Js.has_space tok = false ->
  Js.indexOf_from " " (tok +:+ " " +:+ rest) i = i + Js.strlen tok.
Proof.
  revert i. induction tok as [|c tok IH]; intros i Hs.
  - cbn [String.append Js.indexOf_from]. rewrite prefix_space, Ascii.eqb_refl.
    unfold Js.strlen. simpl. lia.
  - simpl in Hs. apply orb_false_iff in Hs as [Hc Hs].
    cbn [String.append Js.indexOf_from]. rewrite prefix_space, Hc, IH by assumption.
    unfold Js.strlen. cbn [String.length]. rewrite Nat2Z.inj_succ. lia.
Qed.

Lemma indexOf_from_range (needle s : string) (i : Z) :
  Js.indexOf_from needle s i = -1 \/ i <= Js.indexOf_from needle s i.
Proof.
  revert i. induction s as [|c s IH]; intros i; cbn [Js.indexOf_from].
  - destruct (String.prefix needle ""); [right; lia | now left].
  - destruct (String.prefix needle (String c s)); [right; lia|].
    destruct (IH (i + 1)) as [->|Hle]; [now left | right; lia].
Qed.

Lemma indexOf_zero (needle s : string) :
  Js.indexOf needle s = 0 <-> String.prefix needle s = true.
Proof.
  unfold Js.indexOf. destruct s as [|c s]; cbn [Js.indexOf_from].
  - destruct (String.prefix needle ""); split; intros; (reflexivity || discriminate).
  - destruct (String.prefix needle (String c s)); split; intros Hx;
      try reflexivity; try discriminate.
    destruct (indexOf_from_range needle s (0 + 1)) as [Hr|Hr]; rewrite Hx in Hr; lia.
Qed.

Lemma substring_all (a b : string) :
  String.substring 0 (String.length a) (a +:+ b) = a.
Proof.
  induction a as [|c a IH]; simpl.
  - now destruct b.
  - now rewrite IH.
Qed.

Lemma substring_rest (a b : string) :
  String.substring (String.length a) (String.length b) (a +:+ b) = b.
Proof.
  induction a as [|c a IH]; simpl; [|exact IH].
  induction b as [|c b IH]; simpl; [reflexivity | now rewrite IH].
Qed.

Lemma substr_prefix (a b : string) : Js.substr 0 (Js.strlen a) (a +:+ b) = a.
Proof.
  unfold Js.substr. rewrite strlen_append.
  pose proof (strlen_nonneg a). pose proof (strlen_nonneg b).
  replace (0 <? 0) with false by reflexivity.
  rewrite Z.min_l by lia. rewrite Z.max_l by lia. rewrite Z.min_l by lia.
  unfold Js.strlen. rewrite Nat2Z.id. apply substring_all.
Qed.

Lemma substr_from_suffix (a b : string) : Js.substr_from (Js.strlen a) (a +:+ b) = b.
Proof.
  unfold Js.substr_from, Js.substr. rewrite strlen_append.
  pose proof (strlen_nonneg a). pose proof (strlen_nonneg b).
  destruct (Z.ltb_spec (Js.strlen a) 0) as [|_]; [lia|].
  rewrite (Z.min_l (Js.strlen a)) by lia. rewrite Z.max_l by lia.
  rewrite Z.min_r by lia.
  replace (Js.strlen a + Js.strlen b - Js.strlen a) with (Js.strlen b) by lia.
  unfold Js.strlen. rewrite !Nat2Z.id. apply substring_rest.
Qed.

Lemma substr_from_zero (s : string) : Js.substr_from 0 s = s.
Proof.
  unfold Js.substr_from, Js.substr. pose proof (strlen_nonneg s).
  replace (0 <? 0) with false by reflexivity.
  rewrite Z.min_l by lia. rewrite Z.max_l by lia. rewrite Z.min_l by lia.
  unfold Js.strlen. rewrite Nat2Z.id. change (Z.to_nat 0) with 0%nat. clear.
  induction s as [|c s IH]; simpl; [reflexivity | now rewrite IH].
Qed.

Lemma substr_negative_length (s : string) : Js.substr 0 (-1) s = "".
Proof.
  unfold Js.substr. pose proof (strlen_nonneg s).
  replace (0 <? 0) with false by reflexivity.
  rewrite Z.min_l by lia. replace (Z.max (-1) 0) with 0 by reflexivity.
  rewrite Z.min_l by lia. simpl. now destruct s.
Qed.

End StringFacts.

(** ** How the trace grows *)
Section TraceFacts.
Context {Store : Type} `{!WorkdayModel Store}.
Implicit Types (w : Manager.World Store) (this : Manager.t Store) (P : Event -> Prop).

Lemma grows_refl P w : Manager.grows P w w.
Proof. exists []. split; [now rewrite app_nil_r | constructor]. Qed.

Lemma grows_trans P w1 w2 w3 :
  Manager.grows P w1 w2 -> Manager.grows P w2 w3 -> Manager.grows P w1 w3.
Proof.
  intros (e1 & H1 & F1) (e2 & H2 & F2). exists (e1 ++ e2). split.
  - now rewrite H2, H1, app_assoc.
  - apply Forall_app; auto.
Qed.

Lemma grows_log P ev w : P ev -> Manager.grows P w (Manager.log ev w).
Proof. intros HP. exists [ev]. split; [reflexivity | now constructor]. Qed.

Lemma grows_log_all P evs w : Forall P evs -> Manager.grows P w (Manager.log_all evs w).
Proof. intros HP. exists evs. now split. Qed.

Lemma grows_set_store P st w : Manager.grows P w (Manager.set_store st w).
Proof. exists []. split; [simpl; now rewrite app_nil_r | constructor]. Qed.

Lemma grows_send P this text channel w :
  (forall ev, not_lookup ev -> P ev) ->
  Manager.grows P w (Manager.send this text channel w).
Proof. intros HP. apply grows_log, HP. exact I. Qed.

Lemma grows_catch_reply P this user channel err w :
  (forall ev, not_lookup ev -> P ev) ->
  Manager.grows P w (Manager.catch_reply this user channel err w).
Proof. apply grows_send. Qed.

Lemma act_grows_bind {A B : Type} P (act : Manager.Action Store A)
    (k : A -> Manager.Action Store B) :
  Manager.act_grows P act -> (forall a, Manager.act_grows P (k a)) ->
  Manager.act_grows P (Manager.bind act k).
Proof.
  intros Ha Hk w. unfold Manager.bind. specialize (Ha w).
  destruct (act w) as [w' [a|err]]; simpl in *; [|exact Ha].
  eapply grows_trans; [exact Ha | apply Hk].
Qed.

Lemma act_grows_throw {A : Type} P err : Manager.act_grows P (@Manager.throw Store A err).
Proof. intros w. simpl. apply grows_refl. Qed.

Lemma act_grows_query {A : Type} P ev (query : Store -> Completion A) :
  P ev -> Manager.act_grows P (Manager.await_query ev query).
Proof. intros HP w. simpl. now apply grows_log. Qed.

Lemma act_grows_update P ev (update : Store -> Completion Store) :
  P ev -> Manager.act_grows P (Manager.await_update ev update).
Proof.
  intros HP w. unfold Manager.await_update.
  destruct (update (Manager.store w)); simpl; [|now apply grows_log].
  apply grows_trans with (Manager.log ev w); [now apply grows_log | apply grows_set_store].
Qed.

Lemma act_grows_say P this text channel :
  (forall ev, not_lookup ev -> P ev) -> Manager.act_grows P (Manager.say this text channel).
Proof. intros HP w. simpl. now apply grows_send. Qed.

Lemma act_grows_on_workday {A : Type} P method lastWorkday
    (call : Workday.t -> Manager.Action Store A) :
  (forall workday, Manager.act_grows P (call workday)) ->
  Manager.act_grows P (Manager.on_workday method lastWorkday call).
Proof.
  intros Hc. destruct lastWorkday; simpl; [apply Hc | apply act_grows_throw].
Qed.

Lemma grows_try_catch P (body : Manager.Action Store unit) handler w :
  Manager.act_grows P body -> (forall err w', Manager.grows P w' (handler err w')) ->
  Manager.grows P w (Manager.try_catch body handler w).
Proof.
  intros Hb Hh. unfold Manager.try_catch. specialize (Hb w).
  destruct (body w) as [w' [[]|err]]; simpl in *; [exact Hb|].
  eapply grows_trans; [exact Hb | apply Hh].
Qed.

Lemma act_grows_builtin_try P b this text slackId channel :
  (forall ev, not_lookup ev -> P ev) ->
  Manager.act_grows P (Manager.builtin_try b this text slackId channel).
Proof.
  intros HP.
  destruct b; simpl;
    unfold Manager.start_try, Manager.break_try, Manager.continue_try, Manager.end_try;
    repeat first
      [ apply act_grows_bind; [|intros ?]
      | apply act_grows_on_workday; intros ? ?
      | apply act_grows_query; apply HP; exact I
      | apply act_grows_update; apply HP; exact I
      | apply act_grows_say; exact HP
      | intros ? ].
Qed.

Lemma grows_builtin P b this text slackId channel w :
  (forall ev, not_lookup ev -> P ev) ->
  Manager.grows P w (Manager.builtin b this text slackId channel w).
Proof.
  intros HP.
  assert (Manager.builtin b this text slackId channel w =
          Manager.try_catch (Manager.builtin_try b this text slackId channel)
            (Manager.catch_reply this slackId channel) w) as -> by now destruct b.
  apply grows_try_catch.
  - now apply act_grows_builtin_try.
  - intros. now apply grows_catch_reply.
Qed.

End TraceFacts.

(** ** Registration *)
Section RegistrationFacts.
Context {Store : Type}.
Implicit Types (entries : list (string * CommandModule.t Store))
  (commands : gmap string (CommandModule.t Store)).

Lemma underscore_inj (a b : string) : "_" +:+ a = "_" +:+ b -> a = b.
Proof. intros H. now injection H. Qed.

Lemma register_fails entries commands :
  Exists (fun entry => CommandModule.dispatchCommand (snd entry) = None) entries ->
  Manager.register entries commands = Throw Manager.no_dispatchCommand.
Proof.
  revert commands. induction entries as [|[key module] rest IH]; intros commands Hex.
  - inversion Hex.
  - cbn [Manager.register].
    destruct (CommandModule.dispatchCommand module) eqn:Hm; [|reflexivity].
    apply IH. inversion Hex as [? ? Hhd|]; subst; [|assumption].
    simpl in Hhd. congruence.
Qed.

Lemma register_succeeds entries commands :
  Forall (fun entry => CommandModule.capable (snd entry)) entries ->
  exists commands', Manager.register entries commands = Normal commands'.
Proof.
  revert commands. induction entries as [|[key module] rest IH]; intros commands Hall.
  - now exists commands.
  - inversion Hall as [|? ? [handler Hm] Hrest]; subst. simpl in Hm.
    cbn [Manager.register]. rewrite Hm. apply IH, Hrest.
Qed.

Lemma register_capable entries commands commands' :
  Manager.register entries commands = Normal commands' ->
  (forall key module, commands !! key = Some module -> CommandModule.capable module) ->
  forall key module, commands' !! key = Some module -> CommandModule.capable module.
Proof.
  revert commands. induction entries as [|[k m] rest IH]; intros commands Hreg Hall.
  - injection Hreg as <-. exact Hall.
  - cbn [Manager.register] in Hreg.
    destruct (CommandModule.dispatchCommand m) eqn:Hm; [|discriminate].
    apply (IH _ Hreg). intros key module.
    rewrite lookup_insert. case_decide.
    + intros [= <-]. red. rewrite Hm. eauto.
    + apply Hall.
Qed.

Lemma register_keeps entries commands commands' (key : string) :
  Manager.register entries commands = Normal commands' ->
  ~ In key (map fst entries) ->
  commands' !! ("_" +:+ key) = commands !! ("_" +:+ key).
Proof.
  revert commands. induction entries as [|[k m] rest IH]; intros commands Hreg Hnot.
  - now injection Hreg as <-.
  - cbn [Manager.register] in Hreg.
    destruct (CommandModule.dispatchCommand m); [|discriminate].
    rewrite (IH _ Hreg) by (intros Hin; apply Hnot; now right).
    apply lookup_insert_ne. intros Heq%underscore_inj. apply Hnot. now left.
Qed.

Lemma register_enters entries commands commands' key module :
  Manager.register entries commands = Normal commands' ->
  NoDup (map fst entries) -> In (key, module) entries ->
  commands' !! ("_" +:+ key) = Some module.
Proof.
  revert commands. induction entries as [|[k m] rest IH]; intros commands Hreg Hnd Hin.
  - inversion Hin.
  - cbn [Manager.register] in Hreg.
    destruct (CommandModule.dispatchCommand m); [|discriminate].
    simpl in Hnd. apply NoDup_cons in Hnd as [Hfresh Hnd].
    destruct Hin as [[= -> ->]|Hin].
    + rewrite (register_keeps _ _ _ _ Hreg).
      * apply lookup_insert_eq.
      * intros Hx. apply Hfresh. now apply list_elem_of_In.
    + now apply (IH _ Hreg).
Qed.

Lemma register_present entries commands commands' key :
  Manager.register entries commands = Normal commands' ->
  In key (map fst entries) -> is_Some (commands' !! ("_" +:+ key)).
Proof.
  revert commands. induction entries as [|[k m] rest IH]; intros commands Hreg Hin.
  - inversion Hin.
  - cbn [Manager.register] in Hreg.
    destruct (CommandModule.dispatchCommand m); [|discriminate].
    destruct (in_dec string_dec key (map fst rest)) as [Hdup|Hfresh].
    + now apply (IH _ Hreg).
    + destruct Hin as [Hk|Hin]; [simpl in Hk; subst k | contradiction].
      rewrite (register_keeps _ _ _ _ Hreg Hfresh), lookup_insert_eq. eauto.
Qed.

Lemma constructor_capable bot commandModules (this : Manager.t Store) :
  Manager.constructor bot commandModules = Normal this ->
  forall key module, Manager.commands this !! key = Some module -> CommandModule.capable module.
Proof.
  unfold Manager.constructor. destruct commandModules as [entries|].
  - destruct (Manager.register entries ∅) as [commands|] eqn:Hreg; [|discriminate].
    intros [= <-]. simpl. apply (register_capable _ _ _ Hreg).
    intros key module. now rewrite lookup_empty.
  - intros [= <-] key module. simpl. now rewrite lookup_empty.
Qed.

End RegistrationFacts.

(** ** Dispatch *)
Section DispatchFacts.
Context {Store : Type} `{!WorkdayModel Store}.
Implicit Types (w : Manager.World Store) (this : Manager.t Store)
  (msg : SlackMessage.t) (P : Event -> Prop).

Lemma command_of_underscore (text : string) :
  exists key, Manager.command_of text = String "_" key.
Proof. unfold Manager.command_of. simpl. eauto. Qed.

Lemma lookup_member_app (a b : list (string * Member)) (key : string) :
  lookup_member (a ++ b) key
  = match lookup_member a key with
    | Some member => Some member
    | None => lookup_member b key
    end.
Proof.
  induction a as [|[k v] a IH]; simpl; [reflexivity|].
  destruct (String.eqb k key); [reflexivity | exact IH].
Qed.

(** Behind an underscore the Manager has its four handlers, and what it
    inherits. *)
Lemma this_get_underscore (key : string) :
  lookup_member object_members (String "_" key) = None ->
  Manager.this_get (String "_" key) = None
  \/ exists b, Manager.this_get (String "_" key) = Some (Handler b).
Proof.
  intros Hobj. unfold Manager.this_get.
  rewrite !lookup_member_app, Hobj.
  assert (forall a x b y,
            String.eqb (String a x) (String b y) = Ascii.eqb a b && String.eqb x y)
    as eqb_head by reflexivity.
  cbn [lookup_member Manager.own_members Manager.class_members].
  rewrite !eqb_head. cbn [Ascii.eqb Bool.eqb andb].
  repeat match goal with
         | |- context [String.eqb ?a key] => destruct (String.eqb a key)
         end; eauto.
Qed.

Lemma underscore_not_unprefixed (key : string) :
  ~ In (String "_" key) unprefixed_members.
Proof. unfold unprefixed_members. simpl. intros H. intuition discriminate. Qed.

Lemma grows_weaken P w w' :
  (forall ev, not_lookup ev -> P ev) -> Manager.grows not_lookup w w' -> Manager.grows P w w'.
Proof.
  intros HP (evs & Htrace & Hall). exists evs. split; [assumption|].
  eapply Forall_impl; eauto.
Qed.

(** A module's call leaves no self-lookup behind. *)
Lemma act_grows_call_module command module msg :
  Manager.act_grows not_lookup (Manager.call_module (Store := Store) command module msg).
Proof.
  unfold Manager.call_module.
  destruct (CommandModule.dispatchCommand module) as [handler|];
    [|apply act_grows_throw].
  intros w.
  assert (Manager.grows not_lookup w
            (Manager.log_all
               (map (fun m => SendMessage (fst m) (snd m))
                  (CommandModule.sent (handler msg (SlackMessage.user msg) (Manager.store w))))
               (Manager.set_store
                  (CommandModule.store_after
                     (handler msg (SlackMessage.user msg) (Manager.store w)))
                  (Manager.log (ModuleDispatch command msg (SlackMessage.user msg)) w))))
    as Hgrow.
  { apply grows_trans
      with (Manager.log (ModuleDispatch command msg (SlackMessage.user msg)) w);
      [apply grows_log; exact I|].
    eapply grows_trans; [apply grows_set_store|].
    apply grows_log_all. apply List.Forall_forall. intros ev Hin.
    apply in_map_iff in Hin as (m & <- & _). exact I. }
  cbv zeta.
  destruct (CommandModule.settled (handler msg (SlackMessage.user msg) (Manager.store w)));
    exact Hgrow.
Qed.

Lemma act_grows_call_self this command text user channel :
  (exists key, command = String "_" key) ->
  lookup_member object_members command = None ->
  Manager.act_grows underscore_lookup (Manager.call_self this command text user channel).
Proof.
  intros [key ->] Hobj w. unfold Manager.call_self.
  assert (underscore_lookup (SelfLookup (String "_" key) (Manager.this_get (String "_" key))))
    as Hev.
  { split; [now destruct key|]. split; [apply underscore_not_unprefixed|].
    now apply this_get_underscore. }
  assert (forall ev, not_lookup ev -> underscore_lookup ev) as Hweak
    by (intros []; simpl; tauto).
  destruct (Manager.this_get (String "_" key)) as [[b| |]|]; simpl;
    try (now apply grows_log).
  eapply grows_trans; [apply grows_log, Hev|]. now apply grows_builtin.
Qed.

Lemma act_grows_dispatch_try this msg :
  Manager.act_grows underscore_lookup (Manager.dispatch_try this msg).
Proof.
  assert (forall ev, not_lookup ev -> underscore_lookup ev) as Hweak
    by (intros []; simpl; tauto).
  unfold Manager.dispatch_try, Manager.commands_get.
  destruct (Manager.commands this !! Manager.command_of (SlackMessage.text msg)).
  - intros w. apply grows_weaken; [exact Hweak | apply act_grows_call_module].
  - destruct (lookup_member object_members (Manager.command_of (SlackMessage.text msg)))
      eqn:Hobj.
    + apply act_grows_throw.
    + apply act_grows_call_self; [apply command_of_underscore | exact Hobj].
Qed.

(** Every run of [dispatchCommand] leaves at least one event. *)
Lemma dispatchCommand_leaves_a_mark this msg w :
  exists ev evs,
    Manager.trace (Manager.dispatchCommand this msg w) = Manager.trace w ++ ev :: evs.
Proof.
  unfold Manager.dispatchCommand, Manager.try_catch.
  pose proof (act_grows_dispatch_try this msg w) as (evs & Htrace & _).
  destruct (Manager.dispatch_try this msg w) as [w' [[]|err]] eqn:Hrun; simpl in Htrace.
  - (* completed: the [try] block itself logged something *)
    unfold Manager.dispatch_try, Manager.commands_get in Hrun.
    destruct (Manager.commands this !! Manager.command_of (SlackMessage.text msg))
      as [module|].
    + unfold Manager.call_module in Hrun.
      destruct (CommandModule.dispatchCommand module) as [handler|]; [|discriminate].
      cbv zeta in Hrun.
      destruct (CommandModule.settled _); injection Hrun as <-; simpl;
        rewrite <- app_assoc; simpl; eauto.
    + destruct (lookup_member object_members _); [discriminate|].
      unfold Manager.call_self in Hrun.
      destruct (Manager.this_get _) as [[b| |]|]; try discriminate;
        injection Hrun as <-.
      * destruct (grows_builtin (fun _ => True) b this
                    (Js.or_else (Manager.text_of (SlackMessage.text msg)) "")
                    (SlackMessage.user msg) (SlackMessage.channel msg)
                    (Manager.log (SelfLookup (Manager.command_of (SlackMessage.text msg))
                                    (Some (Handler b))) w)) as (evs' & -> & _); [trivial|].
        simpl. rewrite <- app_assoc. simpl. eauto.
      * simpl. eauto.
  - (* threw: the handler replies *)
    unfold Manager.catch_reply, Manager.send. simpl. rewrite Htrace, <- app_assoc.
    destruct evs; simpl; eauto.
Qed.

Lemma dispatchCommand_changes_world this msg w : Manager.dispatchCommand this msg w <> w.
Proof.
  intros Heq. destruct (dispatchCommand_leaves_a_mark this msg w) as (ev & evs & Htrace).
  rewrite Heq in Htrace. apply (f_equal (@List.length Event)) in Htrace.
  rewrite length_app in Htrace. simpl in Htrace. lia.
Qed.

End DispatchFacts.

(** ** Properties of the Manager *)
Section ManagerProperties.
Context {Store : Type} `{!WorkdayModel Store}.
Implicit Types (w : Manager.World Store) (this : Manager.t Store)
  (msg : SlackMessage.t).

(** C1: when the Workday model's is-last-day-ended check fails for the
    owner, [_start] only asks that question and sends one error reply to
    the owner's channel; [save] is not awaited and the store is the one it
    started from. *)
Theorem start_refused_when_last_day_open this (text slackId channel : string) w
    (err : JsError) :
  isLastDayEnded slackId (Manager.store w) = Throw err ->
  Manager._start this text slackId channel w
    = Manager.send this ("<@" +:+ slackId +:+ ">, " +:+ Manager.errorMessage err) channel
        (Manager.log (AwaitIsLastDayEnded slackId) w)
  /\ Manager.store (Manager._start this text slackId channel w) = Manager.store w
  /\ (exists reply target,
        Manager.trace (Manager._start this text slackId channel w)
        = Manager.trace w ++ [AwaitIsLastDayEnded slackId; SendMessage reply target])
  /\ (forall workday,
        In (AwaitSave workday) (Manager.trace (Manager._start this text slackId channel w)) ->
        In (AwaitSave workday) (Manager.trace w)).
Proof.
  intros Hcheck.
  assert (Manager._start this text slackId channel w
          = Manager.send this ("<@" +:+ slackId +:+ ">, " +:+ Manager.errorMessage err)
              channel (Manager.log (AwaitIsLastDayEnded slackId) w)) as Hrun.
  { unfold Manager._start, Manager.try_catch, Manager.start_try, Manager.bind,
      Manager.await_query. now rewrite Hcheck. }
  rewrite Hrun. split; [reflexivity|]. split; [reflexivity|]. split.
  - do 2 eexists. simpl. now rewrite <- app_assoc.
  - intros workday. simpl. rewrite <- app_assoc, in_app_iff. simpl.
    intros [Hin|[Hx|[Hx|[]]]]; [assumption | discriminate | discriminate].
Qed.

(** C3: a message on a channel whose id starts with neither C nor D leaves
    the world as it was: nothing is sent, and no run of [dispatchCommand],
    which always leaves an event, took place. *)
Theorem listen_ignores_other_channels this msg w :
  Js.first_char (SlackMessage.channel msg) <> Some "C"%char ->
  Js.first_char (SlackMessage.channel msg) <> Some "D"%char ->
  Manager.listen this msg w = w
  /\ forall msg', Manager.dispatchCommand this msg' w <> Manager.listen this msg w.
Proof.
  intros HC HD.
  assert (Manager.listen this msg w = w) as Hdrop.
  { unfold Manager.listen, Manager.char_is.
    destruct (Js.first_char (SlackMessage.channel msg)) as [c|]; [|reflexivity].
    destruct (Ascii.eqb_spec c "C"); [congruence|].
    destruct (Ascii.eqb_spec c "D"); [congruence|]. reflexivity. }
  split; [exact Hdrop|]. intros msg'. rewrite Hdrop.
  apply dispatchCommand_changes_world.
Qed.

(** C4: when the command key of a message has an entry among the
    registered modules of a constructed Manager, [dispatchCommand] calls
    that module's [dispatchCommand] on the message with the argument text
    and is done, up to the reply to an error the module throws; no
    self-lookup takes place, whatever built-in has the same name. *)
Theorem registered_module_takes_precedence (bot : Bot.t)
    (commandModules : option (list (string * CommandModule.t Store)))
    this msg w (module : CommandModule.t Store) :
  Manager.constructor bot commandModules = Normal this ->
  Manager.commands this !! Manager.command_of (SlackMessage.text msg) = Some module ->
  exists handler,
    CommandModule.dispatchCommand module = Some handler
    /\ (let command := Manager.command_of (SlackMessage.text msg) in
        let msg' := SlackMessage.with_text msg (Manager.text_of (SlackMessage.text msg)) in
        let user := SlackMessage.user msg in
        let out := handler msg' user (Manager.store w) in
        let called :=
          Manager.log_all
            (map (fun m => SendMessage (fst m) (snd m)) (CommandModule.sent out))
            (Manager.set_store (CommandModule.store_after out)
               (Manager.log (ModuleDispatch command msg' user) w)) in
        Manager.dispatchCommand this msg w
        = match CommandModule.settled out with
          | CommandModule.Thrown err =>
              Manager.catch_reply this user (SlackMessage.channel msg) err called
          | _ => called
          end)
    /\ Manager.grows not_lookup w (Manager.dispatchCommand this msg w).
Proof.
  intros Hnew Hentry.
  destruct (constructor_capable _ _ _ Hnew _ _ Hentry) as [handler Hhandler].
  exists handler. split; [exact Hhandler|]. split.
  - cbv zeta. unfold Manager.dispatchCommand, Manager.try_catch, Manager.dispatch_try,
      Manager.commands_get. rewrite Hentry. unfold Manager.call_module.
    rewrite Hhandler. cbv zeta. simpl SlackMessage.user.
    now destruct (CommandModule.settled _).
  - unfold Manager.dispatchCommand. apply grows_try_catch.
    + unfold Manager.dispatch_try, Manager.commands_get. rewrite Hentry.
      apply act_grows_call_module.
    + intros. now apply grows_catch_reply.
Qed.

(** When a module of the collection lacks [dispatchCommand] the
    constructor throws; when it returns a Manager, each module is found
    under its key behind an underscore and every entry of the command map
    has a truthy [dispatchCommand]. *)
Theorem constructor_checks_modules (bot : Bot.t)
    (entries : list (string * CommandModule.t Store)) :
  (Exists (fun entry => CommandModule.dispatchCommand (snd entry) = None) entries ->
   Manager.constructor bot (Some entries) = Throw Manager.no_dispatchCommand)
  /\ (forall this,
        Manager.constructor bot (Some entries) = Normal this ->
        (forall key module,
           NoDup (map fst entries) -> In (key, module) entries ->
           Manager.commands this !! ("_" +:+ key) = Some module)
        /\ (forall command module,
              Manager.commands this !! command = Some module ->
              exists handler, CommandModule.dispatchCommand module = Some handler)).
Proof.
  split.
  - intros Hex. unfold Manager.constructor. now rewrite (register_fails _ ∅ Hex).
  - intros this Hnew. split.
    + intros key module Hnd Hin. unfold Manager.constructor in Hnew.
      destruct (Manager.register entries ∅) as [commands|] eqn:Hreg; [|discriminate].
      injection Hnew as <-. simpl. now apply (register_enters _ _ _ _ _ Hreg).
    + intros command module Hentry.
      exact (constructor_capable _ _ _ Hnew _ _ Hentry).
Qed.

(** C10: every self-lookup a run of [dispatchCommand] makes is under a key
    that begins with an underscore and finds one of the four handlers or
    nothing; the unprefixed members send, listen, dispatchCommand, bot and
    commands, which the Manager does have, are not among these keys. *)
Theorem self_lookup_underscore this msg w :
  Manager.grows underscore_lookup w (Manager.dispatchCommand this msg w)
  /\ Forall (fun key => is_Some (Manager.this_get key)) unprefixed_members.
Proof.
  split.
  - unfold Manager.dispatchCommand. apply grows_try_catch.
    + apply act_grows_dispatch_try.
    + intros. apply grows_catch_reply. intros []; simpl; tauto.
  - repeat constructor; vm_compute; eauto.
Qed.

(** A command that is neither registered nor a member of the Manager is
    answered like an internal error. *)
Lemma unknown_command_reply this msg w :
  Manager.commands_get this (Manager.command_of (SlackMessage.text msg)) = Manager.Undefined ->
  Manager.this_get (Manager.command_of (SlackMessage.text msg)) = None ->
  Manager.dispatchCommand this msg w
  = Manager.send this ("<@" +:+ SlackMessage.user msg +:+ ">, problems captain!")
      (SlackMessage.channel msg)
      (Manager.log (SelfLookup (Manager.command_of (SlackMessage.text msg)) None) w).
Proof.
  intros Hslot Hself.
  unfold Manager.dispatchCommand, Manager.try_catch, Manager.dispatch_try,
    Manager.call_self.
  now rewrite Hslot, Hself.
Qed.

(** A module that answers with a promise that rejects gets no reply from
    the Manager: the rejection is not an exception of the [try] block. *)
Lemma rejected_promise_is_not_caught this msg w (module : CommandModule.t Store)
    handler (err : JsError) :
  Manager.commands this !! Manager.command_of (SlackMessage.text msg) = Some module ->
  CommandModule.dispatchCommand module = Some handler ->
  let msg' := SlackMessage.with_text msg (Manager.text_of (SlackMessage.text msg)) in
  let out := handler msg' (SlackMessage.user msg) (Manager.store w) in
  CommandModule.settled out = CommandModule.Rejected err ->
  Manager.dispatchCommand this msg w
  = Manager.log_all (map (fun m => SendMessage (fst m) (snd m)) (CommandModule.sent out))
      (Manager.set_store (CommandModule.store_after out)
         (Manager.log
            (ModuleDispatch (Manager.command_of (SlackMessage.text msg)) msg'
               (SlackMessage.user msg)) w)).
Proof.
  intros Hentry Hhandler msg' out Hsettled.
  unfold Manager.dispatchCommand, Manager.try_catch, Manager.dispatch_try,
    Manager.commands_get, Manager.call_module.
  rewrite Hentry, Hhandler. cbv zeta. simpl SlackMessage.user.
  fold msg'. fold out. now rewrite Hsettled.
Qed.

End ManagerProperties.

(** ** The replies of [Message.throw] *)
Section MessageFacts.

Lemma throw_TypeError (this : Message.t) (error : JsError) :
  name error = "TypeError" ->
  fst (Message.throw this error)
  = "<@" +:+ Message.user this +:+ ">,"
    +:+ Js.toLowerCase ("<@" +:+ Message.user this +:+ ">, command '"
                        +:+ Message.command this +:+ "' does not exist.").
Proof. intros Hname. unfold Message.throw. now rewrite Hname. Qed.

Lemma throw_LeakableBotError (this : Message.t) (error : JsError) :
  name error = "LeakableBotError" ->
  fst (Message.throw this error)
  = "<@" +:+ Message.user this +:+ ">,"
    +:+ Js.toLowerCase ("<@" +:+ Message.user this +:+ ">, " +:+ message error).
Proof. intros Hname. unfold Message.throw. now rewrite Hname. Qed.

Lemma throw_other (this : Message.t) (error : JsError) :
  name error <> "TypeError" -> name error <> "LeakableBotError" ->
  fst (Message.throw this error) = "<@" +:+ Message.user this +:+ ">,problems captain!".
Proof.
  intros Ht Hl. unfold Message.throw.
  destruct (String.eqb_spec (name error) "TypeError"); [contradiction|].
  destruct (String.eqb_spec (name error) "LeakableBotError"); [contradiction|].
  reflexivity.
Qed.

End MessageFacts.

(** ** Normalisation of the text *)
Section Normalisation.
Context {Store : Type} `{!WorkdayModel Store}.

Lemma split_no_space (raw : string) :
  Js.has_space raw = false ->
  Js.or_else (Js.substr 0 (Js.indexOf " " raw) raw) raw = raw
  /\ Js.indexOf " " raw = -1.
Proof.
  intros Hs. unfold Js.indexOf. rewrite (indexOf_from_no_space raw 0 Hs).
  now rewrite substr_negative_length.
Qed.

Lemma split_first_space (tok rest : string) :
  Js.has_space tok = false ->
  Js.indexOf " " (tok +:+ " " +:+ rest) = Js.strlen tok
  /\ Js.substr 0 (Js.strlen tok) (tok +:+ " " +:+ rest) = tok
  /\ Js.substr_from (Js.strlen tok + 1) (tok +:+ " " +:+ rest) = rest.
Proof.
  intros Hs. split; [|split].
  - unfold Js.indexOf. rewrite indexOf_from_first_space by assumption. lia.
  - apply substr_prefix.
  - replace (Js.strlen tok + 1) with (Js.strlen (tok +:+ " "))
      by (rewrite strlen_append; reflexivity).
    rewrite <- (append_assoc tok " " rest). apply substr_from_suffix.
Qed.

Lemma strlen_positive (tok : string) : tok <> "" -> (Js.strlen tok =? -1) = false.
Proof. intros _. pose proof (strlen_nonneg tok). lia. Qed.

(** C6, as amended: [extractCommand] splits the text at its first space
    character.  A text without a space gives the key made of an underscore
    and the whole text in lower case, and no argument text; a text that
    starts with a token, then a space, gives the underscore and the token in
    lower case as key and everything behind that one space as argument
    text.  [dispatchCommand] takes the same argument text, and its key is the
    same up to the case of the letters. *)
Theorem extractCommand_splits_at_first_space (this : Message.t) :
  let raw := SlackMessage.text (Message.messageObject this) in
  (Js.has_space raw = false ->
   snd (Message.extractCommand this) = ("_" +:+ Js.toLowerCase raw, ""))
  /\ (forall tok rest,
        tok <> "" -> Js.has_space tok = false -> raw = tok +:+ " " +:+ rest ->
        snd (Message.extractCommand this) = ("_" +:+ Js.toLowerCase tok, rest))
  /\ Manager.text_of raw = snd (snd (Message.extractCommand this))
  /\ Js.toLowerCase (Manager.command_of raw) = fst (snd (Message.extractCommand this)).
Proof.
  cbv zeta. unfold Message.extractCommand. cbn [snd fst]. repeat split.
  - intros Hs. destruct (split_no_space _ Hs) as [-> ->]. reflexivity.
  - intros tok rest Hne Hs ->.
    destruct (split_first_space tok rest Hs) as (-> & -> & ->).
    rewrite (strlen_positive tok Hne).
    destruct tok as [|c tok]; [contradiction | reflexivity].
Qed.

(** C7, as amended: the listener works on the trimmed text.  A text that
    does not begin with the mention of the bot is passed on trimmed.  A text
    that begins with it loses everything up to its first space, which is
    the mention and one separator when a space follows the mention at once,
    and is passed on whole, mention included, when the trimmed text has no
    space.  On a public or direct channel this is the text
    [dispatchCommand] is given. *)
Theorem listen_strips_mention (this : Manager.t Store) (msg : SlackMessage.t) :
  let text := SlackMessage.text msg in
  (String.prefix (Manager.mention this) text = false ->
   Manager.strip_mention this text = Js.trim text)
  /\ (String.prefix (Manager.mention this) text = true ->
      forall tok rest,
        Js.has_space tok = false -> Js.trim text = tok +:+ " " +:+ rest ->
        Manager.strip_mention this text = rest)
  /\ (String.prefix (Manager.mention this) text = true ->
      Js.has_space (Js.trim text) = false ->
      Manager.strip_mention this text = Js.trim text)
  /\ (forall w,
        negb (Manager.char_is (Js.first_char (SlackMessage.channel msg)) "C")
        && negb (Manager.char_is (Js.first_char (SlackMessage.channel msg)) "D") = false ->
        Manager.listen this msg w
        = Manager.dispatchCommand this
            (SlackMessage.with_text msg (Manager.strip_mention this text)) w).
Proof.
  cbv zeta. unfold Manager.strip_mention. repeat split.
  - intros Hpre.
    destruct (Z.eqb_spec (Js.indexOf (Manager.mention this) (SlackMessage.text msg)) 0)
      as [Hz|_]; [|reflexivity].
    apply indexOf_zero in Hz. congruence.
  - intros Hpre tok rest Hs Htrim. apply indexOf_zero in Hpre. rewrite Hpre.
    cbn [Z.eqb]. rewrite Htrim.
    destruct (split_first_space tok rest Hs) as (-> & _ & ->). reflexivity.
  - intros Hpre Hs. apply indexOf_zero in Hpre. rewrite Hpre. cbn [Z.eqb].
    destruct (split_no_space _ Hs) as [_ ->]. apply substr_from_zero.
  - intros w Hchan. unfold Manager.listen. cbv zeta. now rewrite Hchan.
Qed.

End Normalisation.

(** ** Concrete runs *)
Section Runs.

(** [start] twice in a row: the second call is refused and the log keeps
    its one record. *)
Example start_twice :
  let again :=
    Manager.listen Sample.manager (Sample.message "<@B0> start review" "U1" "D1")
      Sample.started in
  Manager.store again = Manager.store Sample.started
  /\ List.length (Manager.store again) = 1%nat
  /\ List.last (Manager.trace again) (SelfLookup "" None)
     = SendMessage "<@U1>, SessionAlreadyOpen" "D1".
Proof. repeat split; vm_compute; reflexivity. Qed.

Lemma start_refused_witness :
  isLastDayEnded "U1" (Manager.store Sample.started)
    = Throw (LeakableBotError "SessionAlreadyOpen")
  /\ Manager.store (Manager._start Sample.manager "again" "U1" "D1" Sample.started)
     = Manager.store Sample.started.
Proof.
  split; [reflexivity|].
  apply (start_refused_when_last_day_open Sample.manager "again" "U1" "D1" Sample.started
           (LeakableBotError "SessionAlreadyOpen")).
  reflexivity.
Defined.

Lemma listen_ignores_witness :
  Manager.listen Sample.manager (Sample.message "start design" "U1" "G1") Sample.world
  = Sample.world.
Proof.
  apply (listen_ignores_other_channels Sample.manager
           (Sample.message "start design" "U1" "G1") Sample.world);
    vm_compute; discriminate.
Defined.

Lemma registered_module_witness :
  Manager.grows not_lookup Sample.world
    (Manager.dispatchCommand Sample.shadowing (Sample.message "start design" "U1" "D1")
       Sample.world).
Proof.
  destruct (registered_module_takes_precedence Sample.bot (Some [("start", Sample.echo)])
              Sample.shadowing (Sample.message "start design" "U1" "D1") Sample.world
              Sample.echo) as (handler & _ & _ & Hgrows).
  - reflexivity.
  - vm_compute. reflexivity.
  - exact Hgrows.
Defined.

(** C5: with no module registered, the message [frobnicate] makes one
    self-lookup that finds nothing, the store is untouched, and the one
    reply is the text every internal error gets; [Message.throw] names the
    command in its reply to the same error. *)
Theorem unknown_command_gets_the_generic_reply :
  Manager.dispatchCommand Sample.manager (Sample.message "frobnicate" "U1" "D1") Sample.world
  = {| Manager.trace :=
         [ SelfLookup "_frobnicate" None; SendMessage "<@U1>, problems captain!" "D1" ];
       Manager.store := []; Manager.clock := 10 |}
  /\ Manager.dispatchCommand Sample.manager (Sample.message "frobnicate" "U1" "D1") Sample.world
     = Manager.catch_reply Sample.manager "U1" "D1" (Error "connection lost")
         (Manager.log (SelfLookup "_frobnicate" None) Sample.world)
  /\ Message.throw
       (fst (Message.extractCommand
               (Message.constructor (Sample.message "frobnicate" "U1" "D1"))))
       (TypeError "this[command] is not a function")
     = ("<@U1>,<@u1>, command '_frobnicate' does not exist.", "D1").
Proof. repeat split; vm_compute; reflexivity. Qed.

Lemma whitespace_run_is_not_skipped :
  ~ (forall raw : string,
       snd (Message.extractCommand (Message.constructor (Sample.message raw "U1" "D1")))
       = ("_" +:+ fst (Normalizer.split raw), snd (Normalizer.split raw))).
Proof.
  intros Hclaim. specialize (Hclaim "start  design").
  vm_compute in Hclaim. discriminate Hclaim.
Qed.

Lemma extractCommand_witness :
  snd (Message.extractCommand
         (Message.constructor (Sample.message "Start design  now" "U1" "D1")))
  = ("_start", "design  now").
Proof.
  apply (proj1 (proj2 (extractCommand_splits_at_first_space
                         (Message.constructor (Sample.message "Start design  now" "U1" "D1"))))
           "Start" "design  now").
  - discriminate.
  - reflexivity.
  - reflexivity.
Defined.

Lemma text_without_mention_is_trimmed :
  ~ (forall text : string,
       String.prefix (Manager.mention Sample.manager) text = false ->
       Manager.strip_mention Sample.manager text = text).
Proof.
  intros Hclaim. specialize (Hclaim "  start" eq_refl).
  vm_compute in Hclaim. discriminate Hclaim.
Qed.

Lemma listen_strips_mention_witness :
  Manager.strip_mention Sample.manager "<@B0> start design " = "start design".
Proof.
  apply (proj1 (proj2 (listen_strips_mention Sample.manager
                         (Sample.message "<@B0> start design " "U1" "D1")))
           eq_refl "<@B0>" "start design").
  - reflexivity.
  - reflexivity.
Defined.

Lemma constructor_checks_witness :
  Manager.constructor Sample.bot (Some [("ping", Sample.echo); ("pong", Sample.bare)])
  = Throw Manager.no_dispatchCommand
  /\ Manager.commands Sample.shadowing !! ("_" +:+ "start") = Some Sample.echo.
Proof.
  split.
  - apply (proj1 (constructor_checks_modules Sample.bot
                    [("ping", Sample.echo); ("pong", Sample.bare)])).
    right. left. reflexivity.
  - apply (proj1 (proj2 (constructor_checks_modules Sample.bot [("start", Sample.echo)])
                    Sample.shadowing eq_refl) "start" Sample.echo).
    + apply NoDup_singleton.
    + left. reflexivity.
Defined.

Lemma builtin_name_is_accepted :
  ~ (forall entries : list (string * CommandModule.t SessionLog.Store),
       (exists key module b,
          In (key, module) entries /\ Manager.this_get ("_" +:+ key) = Some (Handler b)) ->
       exists err, Manager.constructor Sample.bot (Some entries) = Throw err).
Proof.
  intros Hclaim.
  destruct (Hclaim [("start", Sample.echo)]) as [err Herr].
  - exists "start", Sample.echo, BStart. split; [now left | reflexivity].
  - discriminate Herr.
Qed.

End Runs.

(** ** The built-in handlers *)
Section Handlers.
Context {Store : Type} `{!WorkdayModel Store}.
Implicit Types (w : Manager.World Store) (this : Manager.t Store).

Lemma send_trace this (text channel : string) w :
  Manager.trace (Manager.send this text channel w)
  = Manager.trace w ++ [SendMessage text (target (Manager.bot this) channel)].
Proof. reflexivity. Qed.

Lemma builtin_unfold (b : Builtin) this (text slackId channel : string) w :
  Manager.builtin b this text slackId channel w
  = Manager.try_catch (Manager.builtin_try b this text slackId channel)
      (Manager.catch_reply this slackId channel) w.
Proof. now destruct b. Qed.

(** What a [try] block of a handler leaves: awaits only when it throws,
    awaits and the confirmation when it completes; a block that throws has
    not touched the store. *)
Lemma builtin_try_shape (b : Builtin) this (text slackId channel : string) w :
  exists awaits,
    Forall is_await awaits
    /\ Manager.clock (fst (Manager.builtin_try b this text slackId channel w))
       = Manager.clock w
    /\ match snd (Manager.builtin_try b this text slackId channel w) with
       | Normal _ =>
           exists confirmation,
             Manager.trace (fst (Manager.builtin_try b this text slackId channel w))
             = Manager.trace w ++ awaits
                 ++ [SendMessage confirmation (target (Manager.bot this) channel)]
       | Throw _ =>
           Manager.trace (fst (Manager.builtin_try b this text slackId channel w))
           = Manager.trace w ++ awaits
           /\ Manager.store (fst (Manager.builtin_try b this text slackId channel w))
              = Manager.store w
       end.
Proof.
  destruct b; cbn [Manager.builtin_try];
    unfold Manager.start_try, Manager.break_try, Manager.continue_try, Manager.end_try,
      Manager.bind, Manager.await_query, Manager.await_update, Manager.on_workday,
      Manager.throw, Manager.say.
  - destruct (isLastDayEnded slackId (Manager.store w)) as [[]|err]; cbn.
    + match goal with
      | |- context [save ?wd (Manager.store w)] =>
          destruct (save wd (Manager.store w)) as [st|err]; cbn;
            [ exists [AwaitIsLastDayEnded slackId; AwaitSave wd]
            | exists [AwaitIsLastDayEnded slackId; AwaitSave wd] ]
      end.
      * split; [repeat constructor|]. split; [reflexivity|].
        eexists. now rewrite <- !app_assoc.
      * split; [repeat constructor|]. split; [reflexivity|].
        split; [now rewrite <- !app_assoc | reflexivity].
    + exists [AwaitIsLastDayEnded slackId]. split; [repeat constructor|].
      split; [reflexivity|]. now split.
  - destruct (getLastWorkdayByUser slackId (Manager.store w)) as [[wd|]|err]; cbn.
    + destruct (giveBreak (Manager.clock w) wd (Manager.store w)) as [st|err]; cbn;
        exists [AwaitGetLastWorkdayByUser slackId; AwaitGiveBreak wd];
        (split; [repeat constructor|]); (split; [reflexivity|]).
      * eexists. now rewrite <- !app_assoc.
      * split; [now rewrite <- !app_assoc | reflexivity].
    + exists [AwaitGetLastWorkdayByUser slackId]. split; [repeat constructor|].
      split; [reflexivity|]. now split.
    + exists [AwaitGetLastWorkdayByUser slackId]. split; [repeat constructor|].
      split; [reflexivity|]. now split.
  - destruct (getLastWorkdayByUser slackId (Manager.store w)) as [[wd|]|err]; cbn.
    + destruct (continueDay (Manager.clock w) text wd (Manager.store w)) as [st|err]; cbn;
        exists [AwaitGetLastWorkdayByUser slackId; AwaitContinueDay wd text];
        (split; [repeat constructor|]); (split; [reflexivity|]).
      * eexists. now rewrite <- !app_assoc.
      * split; [now rewrite <- !app_assoc | reflexivity].
    + exists [AwaitGetLastWorkdayByUser slackId]. split; [repeat constructor|].
      split; [reflexivity|]. now split.
    + exists [AwaitGetLastWorkdayByUser slackId]. split; [repeat constructor|].
      split; [reflexivity|]. now split.
  - destruct (getLastWorkdayByUser slackId (Manager.store w)) as [[wd|]|err]; cbn.
    + destruct (endDay (Manager.clock w) wd (Manager.store w)) as [st|err]; cbn;
        exists [AwaitGetLastWorkdayByUser slackId; AwaitEndDay wd];
        (split; [repeat constructor|]); (split; [reflexivity|]).
      * eexists. now rewrite <- !app_assoc.
      * split; [now rewrite <- !app_assoc | reflexivity].
    + exists [AwaitGetLastWorkdayByUser slackId]. split; [repeat constructor|].
      split; [reflexivity|]. now split.
    + exists [AwaitGetLastWorkdayByUser slackId]. split; [repeat constructor|].
      split; [reflexivity|]. now split.
Qed.

Lemma builtin_replies_once_aux (b : Builtin) this (text slackId channel : string) w :
  exists awaits reply,
    Manager.trace (Manager.builtin b this text slackId channel w)
    = Manager.trace w ++ awaits ++ [SendMessage reply (target (Manager.bot this) channel)].
Proof.
  rewrite builtin_unfold. unfold Manager.try_catch.
  destruct (builtin_try_shape b this text slackId channel w) as (awaits & _ & _ & Hrun).
  destruct (Manager.builtin_try b this text slackId channel w) as [w' [[]|err]];
    cbn [fst snd] in *.
  - destruct Hrun as [confirmation Htrace]. now exists awaits, confirmation.
  - destruct Hrun as [Htrace _].
    exists awaits, ("<@" +:+ slackId +:+ ">, " +:+ Manager.errorMessage err).
    unfold Manager.catch_reply. now rewrite send_trace, Htrace, <- app_assoc.
Qed.

(** Every built-in command is answered exactly once: whatever the Workday
    model does, a handler adds to the trace some awaits and then one
    message, sent to the channel of the command, and leaves the clock. *)
Theorem builtin_replies_once (b : Builtin) this (text slackId channel : string) w :
  exists awaits reply,
    Manager.trace (Manager.builtin b this text slackId channel w)
    = Manager.trace w ++ awaits ++ [SendMessage reply (target (Manager.bot this) channel)]
    /\ Forall is_await awaits
    /\ Manager.clock (Manager.builtin b this text slackId channel w) = Manager.clock w.
Proof.
  rewrite builtin_unfold. unfold Manager.try_catch.
  destruct (builtin_try_shape b this text slackId channel w) as (awaits & Hawaits & Hclock & Hrun).
  destruct (Manager.builtin_try b this text slackId channel w) as [w' [[]|err]];
    cbn [fst snd] in *.
  - destruct Hrun as [confirmation Htrace]. now exists awaits, confirmation.
  - destruct Hrun as [Htrace _].
    exists awaits, ("<@" +:+ slackId +:+ ">, " +:+ Manager.errorMessage err).
    unfold Manager.catch_reply. rewrite send_trace, Htrace, <- app_assoc.
    repeat split; [assumption | exact Hclock].
Qed.

(** A handler whose [try] block throws leaves the store as it found it:
    the one update a handler awaits is followed by nothing that can fail. *)
Theorem builtin_failure_keeps_store (b : Builtin) this (text slackId channel : string)
    w w' (err : JsError) :
  Manager.builtin_try b this text slackId channel w = (w', Throw err) ->
  Manager.store (Manager.builtin b this text slackId channel w) = Manager.store w
  /\ Manager.builtin b this text slackId channel w
     = Manager.send this ("<@" +:+ slackId +:+ ">, " +:+ Manager.errorMessage err) channel w'.
Proof.
  intros Hrun. rewrite builtin_unfold. unfold Manager.try_catch.
  destruct (builtin_try_shape b this text slackId channel w) as (awaits & _ & _ & Hshape).
  rewrite Hrun in *. cbn [fst snd] in Hshape. destruct Hshape as [_ Hstore].
  split; [exact Hstore | reflexivity].
Qed.

(** When the check passes and [save] resolves, [_start] has saved one
    workday of the owner, begun now and not ended, whose one interval is
    open, begins at the same instant and carries the text; the store is the
    one [save] answered with and the confirmation is sent after it. *)
Theorem start_saves_one_open_interval this (text slackId channel : string) w
    (saved : Store) :
  let workday :=
    {| Workday.slackId := slackId; Workday.begin := Manager.clock w;
       Workday.end_ := None;
       Workday.intervals :=
         [ {| Interval.begin := Manager.clock w; Interval.end_ := None;
              Interval.description := text |} ] |} in
  isLastDayEnded slackId (Manager.store w) = Normal tt ->
  save workday (Manager.store w) = Normal saved ->
  Manager.store (Manager._start this text slackId channel w) = saved
  /\ Manager.trace (Manager._start this text slackId channel w)
     = Manager.trace w
       ++ [ AwaitIsLastDayEnded slackId; AwaitSave workday;
            SendMessage ("<@" +:+ slackId +:+ ">'s workday is just started with "
                         +:+ text +:+ ".")
              (target (Manager.bot this) channel) ].
Proof.
  intros workday Hcheck Hsave.
  unfold Manager._start, Manager.try_catch, Manager.start_try, Manager.bind,
    Manager.await_query, Manager.await_update, Manager.say.
  rewrite Hcheck. cbn. fold workday. rewrite Hsave. cbn.
  split; [reflexivity | now rewrite <- !app_assoc].
Qed.

(** When the Workday model knows no workday of the owner
    ([getLastWorkdayByUser] resolves to null), [_break], [_continue] and
    [_end] call a method of null: the owner gets the reply of an internal
    error, no method of a workday is awaited and the store stays. *)
Theorem no_workday_is_an_internal_error (b : Builtin) this (text slackId channel : string) w :
  b <> BStart ->
  getLastWorkdayByUser slackId (Manager.store w) = Normal None ->
  Manager.builtin b this text slackId channel w
  = Manager.send this ("<@" +:+ slackId +:+ ">, problems captain!") channel
      (Manager.log (AwaitGetLastWorkdayByUser slackId) w).
Proof.
  intros Hb Hnone.
  destruct b; [contradiction| | |];
    cbn [Manager.builtin];
    unfold Manager._break, Manager._continue, Manager._end, Manager.try_catch,
      Manager.break_try, Manager.continue_try, Manager.end_try, Manager.bind,
      Manager.await_query, Manager.on_workday, Manager.throw;
    rewrite Hnone; reflexivity.
Qed.

End Handlers.

(** ** From the text of a message to a handler *)
Section Routing.
Context {Store : Type} `{!WorkdayModel Store}.
Implicit Types (w : Manager.World Store) (this : Manager.t Store)
  (msg : SlackMessage.t).

Lemma or_else_empty (s : string) : Js.or_else s "" = s.
Proof. now destruct s. Qed.

Lemma has_space_append (a b : string) :
  Js.has_space (a +:+ b) = Js.has_space a || Js.has_space b.
Proof.
  induction a as [|c a IH]; simpl; [reflexivity|]. now rewrite IH, orb_assoc.
Qed.

Lemma prefix_append (a b : string) : String.prefix a (a +:+ b) = true.
Proof.
  induction a as [|c a IH]; cbn [String.append String.prefix].
  - apply prefix_empty.
  - destruct (ascii_dec c c); [exact IH | congruence].
Qed.

Lemma first_space_decompose (s : string) :
  Js.has_space s = true ->
  exists tok rest, Js.has_space tok = false /\ s = tok +:+ " " +:+ rest.
Proof.
  induction s as [|c s IH]; simpl; [discriminate|].
  destruct (Ascii.eqb_spec c " ") as [->|Hc]; simpl.
  - intros _. now exists "", s.
  - intros Hs. destruct (IH Hs) as (tok & rest & Htok & ->).
    exists (String c tok), rest. split; [|reflexivity].
    simpl. rewrite Htok. now apply Ascii.eqb_neq in Hc as ->.
Qed.

(** The locals of [dispatchCommand] on a text with a first space and on a
    text without a space. *)
Lemma locals_first_space (tok rest : string) :
  Js.has_space tok = false ->
  Manager.command_of (tok +:+ " " +:+ rest) = "_" +:+ Js.or_else tok (tok +:+ " " +:+ rest)
  /\ Manager.text_of (tok +:+ " " +:+ rest) = rest.
Proof.
  intros Hs. unfold Manager.command_of, Manager.text_of.
  destruct (split_first_space tok rest Hs) as (-> & -> & ->).
  split; [reflexivity|].
  pose proof (strlen_nonneg tok).
  destruct (Z.eqb_spec (Js.strlen tok) (-1)); [lia | reflexivity].
Qed.

Lemma locals_no_space (text : string) :
  Js.has_space text = false ->
  Manager.command_of text = "_" +:+ text /\ Manager.text_of text = "".
Proof.
  intros Hs. unfold Manager.command_of, Manager.text_of.
  destruct (split_no_space text Hs) as [-> ->]. now split.
Qed.

Lemma builtin_name_plain (b : Builtin) :
  Js.has_space (builtin_name b) = false
  /\ lookup_member object_members ("_" +:+ builtin_name b) = None
  /\ Manager.this_get ("_" +:+ builtin_name b) = Some (Handler b)
  /\ forall rest, Js.or_else (builtin_name b) rest = builtin_name b.
Proof. destruct b; repeat split. Qed.

(** The run of [dispatchCommand] on the word of a built-in handler. *)
Lemma dispatch_word (b : Builtin) this msg w (rest : string) :
  Manager.commands this !! ("_" +:+ builtin_name b) = None ->
  SlackMessage.text msg = builtin_name b +:+ " " +:+ rest
  \/ (SlackMessage.text msg = builtin_name b /\ rest = "") ->
  Manager.dispatchCommand this msg w
  = Manager.builtin b this rest (SlackMessage.user msg) (SlackMessage.channel msg)
      (Manager.log (SelfLookup ("_" +:+ builtin_name b) (Some (Handler b))) w).
Proof.
  intros Hfree Htext.
  destruct (builtin_name_plain b) as (Hplain & Hobj & Hself & Hword).
  assert (Manager.command_of (SlackMessage.text msg) = "_" +:+ builtin_name b
          /\ Manager.text_of (SlackMessage.text msg) = rest) as [Hcommand Hrest].
  { destruct Htext as [->|[-> ->]].
    - destruct (locals_first_space (builtin_name b) rest Hplain) as [-> ->].
      now rewrite Hword.
    - now apply locals_no_space. }
  unfold Manager.dispatchCommand, Manager.try_catch, Manager.dispatch_try,
    Manager.commands_get, Manager.call_self.
  rewrite Hcommand, Hrest, Hfree, Hobj, Hself, or_else_empty. reflexivity.
Qed.

(** A message that is the word start, break, continue or end, alone or
    followed by one space and a text, runs the handler of that name on the
    text, for the sender and on the channel of the message, unless a module
    is registered under the word. *)
Theorem dispatch_reaches_builtin (b : Builtin) this msg w (rest : string) :
  Manager.commands this !! ("_" +:+ builtin_name b) = None ->
  SlackMessage.text msg = builtin_name b +:+ " " +:+ rest
  \/ (SlackMessage.text msg = builtin_name b /\ rest = "") ->
  Manager.dispatchCommand this msg w
  = Manager.builtin b this rest (SlackMessage.user msg) (SlackMessage.channel msg)
      (Manager.log (SelfLookup ("_" +:+ builtin_name b) (Some (Handler b))) w)
  /\ exists events reply,
       Manager.trace (Manager.dispatchCommand this msg w)
       = Manager.trace w ++ events
           ++ [SendMessage reply (target (Manager.bot this) (SlackMessage.channel msg))].
Proof.
  intros Hfree Htext. rewrite (dispatch_word b this msg w rest Hfree Htext).
  split; [reflexivity|].
  destruct (builtin_replies_once_aux b this rest (SlackMessage.user msg)
              (SlackMessage.channel msg)
              (Manager.log (SelfLookup ("_" +:+ builtin_name b) (Some (Handler b))) w))
    as (awaits & reply & Htrace).
  exists (SelfLookup ("_" +:+ builtin_name b) (Some (Handler b)) :: awaits), reply.
  rewrite Htrace. cbn [Manager.trace Manager.log]. now rewrite <- !app_assoc.
Qed.

End Routing.

(** ** Messages no handler takes, and the way through the listener *)
Section Refusals.
Context {Store : Type} `{!WorkdayModel Store}.
Implicit Types (w : Manager.World Store) (this : Manager.t Store)
  (msg : SlackMessage.t).

(** A message whose key names something every object inherits
    ([__proto__], [__defineGetter__], ...) finds it in [this.commands],
    where it has no [dispatchCommand]: the sender gets the reply of an
    internal error, and neither a handler nor an inherited function runs. *)
Theorem inherited_names_are_refused this msg w (member : Member) :
  Manager.commands this !! Manager.command_of (SlackMessage.text msg) = None ->
  lookup_member object_members (Manager.command_of (SlackMessage.text msg)) = Some member ->
  Manager.dispatchCommand this msg w
  = Manager.send this ("<@" +:+ SlackMessage.user msg +:+ ">, problems captain!")
      (SlackMessage.channel msg) w.
Proof.
  intros Hfree Hobj.
  unfold Manager.dispatchCommand, Manager.try_catch, Manager.dispatch_try,
    Manager.commands_get.
  now rewrite Hfree, Hobj.
Qed.

(** A message whose key is neither registered nor a member of the Manager
    makes one self-lookup and is answered once, on its channel, by the
    reply of an internal error; store and clock stay as they were. *)
Theorem unknown_command_is_answered_once this msg w :
  Manager.commands this !! Manager.command_of (SlackMessage.text msg) = None ->
  lookup_member object_members (Manager.command_of (SlackMessage.text msg)) = None ->
  Manager.this_get (Manager.command_of (SlackMessage.text msg)) = None ->
  Manager.trace (Manager.dispatchCommand this msg w)
  = Manager.trace w
    ++ [ SelfLookup (Manager.command_of (SlackMessage.text msg)) None;
         SendMessage ("<@" +:+ SlackMessage.user msg +:+ ">, problems captain!")
           (target (Manager.bot this) (SlackMessage.channel msg)) ]
  /\ Manager.store (Manager.dispatchCommand this msg w) = Manager.store w
  /\ Manager.clock (Manager.dispatchCommand this msg w) = Manager.clock w.
Proof.
  intros Hfree Hobj Hself.
  unfold Manager.dispatchCommand, Manager.try_catch, Manager.dispatch_try,
    Manager.commands_get, Manager.call_self.
  rewrite Hfree, Hobj, Hself. cbn. now rewrite <- app_assoc.
Qed.

Lemma trimStart_blank (s : string) : blank s = true -> Js.trimStart s = "".
Proof.
  induction s as [|c s IH]; simpl; [reflexivity|].
  intros [Hc Hs]%andb_true_iff. rewrite Hc. now apply IH.
Qed.

Lemma strip_mention_blank this (text : string) :
  blank text = true -> Manager.strip_mention this text = "".
Proof.
  intros Hblank. unfold Manager.strip_mention, Js.trim.
  rewrite (trimStart_blank text Hblank). now destruct (_ =? 0).
Qed.

(** An empty message, or one of white space only, on a public or direct
    channel is looked up under the bare underscore: when no module has the
    empty name the sender gets the reply of an internal error and nothing
    else happens. *)
Theorem blank_message_is_refused this msg w :
  blank (SlackMessage.text msg) = true ->
  negb (Manager.char_is (Js.first_char (SlackMessage.channel msg)) "C")
  && negb (Manager.char_is (Js.first_char (SlackMessage.channel msg)) "D") = false ->
  Manager.commands this !! "_" = None ->
  Manager.listen this msg w
  = Manager.send this ("<@" +:+ SlackMessage.user msg +:+ ">, problems captain!")
      (SlackMessage.channel msg) (Manager.log (SelfLookup "_" None) w).
Proof.
  intros Hblank Hchannel Hfree. unfold Manager.listen. cbv zeta.
  rewrite Hchannel, (strip_mention_blank this _ Hblank).
  unfold Manager.dispatchCommand, Manager.try_catch, Manager.dispatch_try,
    Manager.commands_get, Manager.call_self.
  cbn [SlackMessage.text SlackMessage.with_text].
  change (Manager.command_of "") with "_". now rewrite Hfree.
Qed.

Lemma mention_plain this :
  Js.has_space (Bot.id (Manager.bot this)) = false ->
  Js.has_space (Manager.mention this) = false.
Proof.
  intros Hid. unfold Manager.mention. rewrite !has_space_append, Hid. reflexivity.
Qed.

Lemma strip_mention_after this (body : string) :
  Js.has_space (Bot.id (Manager.bot this)) = false ->
  Js.trim (Manager.mention this +:+ " " +:+ body) = Manager.mention this +:+ " " +:+ body ->
  Manager.strip_mention this (Manager.mention this +:+ " " +:+ body) = body.
Proof.
  intros Hid Htrim. unfold Manager.strip_mention.
  rewrite (proj2 (indexOf_zero _ _) (prefix_append _ _)). cbn [Z.eqb]. rewrite Htrim.
  now destruct (split_first_space _ body (mention_plain this Hid)) as (-> & _ & ->).
Qed.

Lemma strip_mention_word this (b : Builtin) (tail : string) :
  Js.trim (builtin_name b +:+ tail) = builtin_name b +:+ tail ->
  Manager.strip_mention this (builtin_name b +:+ tail) = builtin_name b +:+ tail.
Proof.
  intros Htrim. unfold Manager.strip_mention. rewrite Htrim.
  destruct (Z.eqb_spec (Js.indexOf (Manager.mention this) (builtin_name b +:+ tail)) 0)
    as [Hzero|_]; [|reflexivity].
  apply indexOf_zero in Hzero. now destruct b.
Qed.

(** On a public or direct channel a message without surrounding white
    space that is a built-in word and a text, or the mention of the bot, one
    space, the word and a text, runs the handler of that word on the text
    and is answered once on that channel, unless a module is registered
    under the word. *)
Theorem listen_reaches_builtin (b : Builtin) this msg w (rest : string) :
  let body := builtin_name b +:+ " " +:+ rest in
  negb (Manager.char_is (Js.first_char (SlackMessage.channel msg)) "C")
  && negb (Manager.char_is (Js.first_char (SlackMessage.channel msg)) "D") = false ->
  Js.has_space (Bot.id (Manager.bot this)) = false ->
  Js.trim (SlackMessage.text msg) = SlackMessage.text msg ->
  SlackMessage.text msg = body
  \/ SlackMessage.text msg = Manager.mention this +:+ " " +:+ body ->
  Manager.commands this !! ("_" +:+ builtin_name b) = None ->
  Manager.listen this msg w
  = Manager.builtin b this rest (SlackMessage.user msg) (SlackMessage.channel msg)
      (Manager.log (SelfLookup ("_" +:+ builtin_name b) (Some (Handler b))) w).
Proof.
  intros body Hchannel Hid Htrim Htext Hfree.
  assert (Manager.strip_mention this (SlackMessage.text msg) = body) as Hbody.
  { destruct Htext as [Htext|Htext]; rewrite Htext in Htrim |- *.
    - now apply strip_mention_word.
    - now apply strip_mention_after. }
  unfold Manager.listen. cbv zeta. rewrite Hchannel, Hbody.
  rewrite (dispatch_word b this (SlackMessage.with_text msg body) w rest Hfree);
    [reflexivity | left; reflexivity].
Qed.

Lemma space_key_finds_nothing (body : string) :
  lookup_member object_members ("_" +:+ " " +:+ body) = None
  /\ Manager.this_get ("_" +:+ " " +:+ body) = None.
Proof.
  assert (forall a x b y,
            String.eqb (String a x) (String b y) = Ascii.eqb a b && String.eqb x y)
    as eqb_head by reflexivity.
  unfold Manager.this_get.
  cbn [app lookup_member object_members Manager.own_members Manager.class_members
       String.append].
  repeat (rewrite !eqb_head; cbn [Ascii.eqb Bool.eqb andb]).
  now split.
Qed.

(** Two spaces behind the mention break the command: the listener takes
    one of them away with the mention, the text then begins with a space,
    and the key is the underscore and that whole text, which names no
    handler.  Unless a module has this name, the sender gets the reply of an
    internal error. *)
Theorem second_space_after_mention_breaks_the_command this msg w (body : string) :
  negb (Manager.char_is (Js.first_char (SlackMessage.channel msg)) "C")
  && negb (Manager.char_is (Js.first_char (SlackMessage.channel msg)) "D") = false ->
  Js.has_space (Bot.id (Manager.bot this)) = false ->
  Js.trim (SlackMessage.text msg) = SlackMessage.text msg ->
  SlackMessage.text msg = Manager.mention this +:+ " " +:+ " " +:+ body ->
  Manager.commands this !! ("_" +:+ " " +:+ body) = None ->
  Manager.listen this msg w
  = Manager.send this ("<@" +:+ SlackMessage.user msg +:+ ">, problems captain!")
      (SlackMessage.channel msg)
      (Manager.log (SelfLookup ("_" +:+ " " +:+ body) None) w).
Proof.
  intros Hchannel Hid Htrim Htext Hfree.
  assert (Manager.strip_mention this (SlackMessage.text msg) = " " +:+ body) as Hbody.
  { rewrite Htext in Htrim |- *. now apply strip_mention_after. }
  destruct (space_key_finds_nothing body) as [Hobj Hself].
  destruct (locals_first_space "" body eq_refl) as [Hcommand _].
  cbn [String.append Js.or_else] in Hcommand.
  unfold Manager.listen. cbv zeta. rewrite Hchannel, Hbody.
  unfold Manager.dispatchCommand, Manager.try_catch, Manager.dispatch_try,
    Manager.commands_get, Manager.call_self.
  cbn [SlackMessage.text SlackMessage.with_text SlackMessage.user SlackMessage.channel].
  change (" " +:+ body) with (String " " body).
  rewrite Hcommand.
  change (String "_" (String " " body)) with ("_" +:+ " " +:+ body).
  now rewrite Hfree, Hobj, Hself.
Qed.

End Refusals.

(** ** What the constructor registers, and the texts of the Message helper *)
Section Registry.
Context {Store : Type} `{!WorkdayModel Store}.

Lemma register_origin (entries : list (string * CommandModule.t Store))
    (commands commands' : gmap string (CommandModule.t Store)) :
  Manager.register entries commands = Normal commands' ->
  forall command module,
    commands' !! command = Some module ->
    commands !! command = Some module
    \/ exists key, command = "_" +:+ key /\ In (key, module) entries.
Proof.
  revert commands. induction entries as [|[k m] rest IH]; intros commands Hreg.
  - injection Hreg as <-. auto.
  - cbn [Manager.register] in Hreg.
    destruct (CommandModule.dispatchCommand m); [|discriminate].
    intros command module Hentry.
    destruct (IH _ Hreg command module Hentry) as [Hhere|(key & -> & Hin)].
    + rewrite lookup_insert in Hhere. case_decide as Hkey.
      * injection Hhere as <-. right. exists k. split; [now symmetry | now left].
      * now left.
    + right. exists key. split; [reflexivity | now right].
Qed.

(** The command map of a constructed Manager holds the modules of the
    collection and nothing else: every entry is one of the modules under
    the underscore and its key, and a key has an entry exactly when it is
    the underscore and the key of a module. *)
Theorem constructor_registers_exactly (bot : Bot.t)
    (entries : list (string * CommandModule.t Store)) (this : Manager.t Store) :
  Manager.constructor bot (Some entries) = Normal this ->
  (forall command module,
     Manager.commands this !! command = Some module ->
     exists key, command = "_" +:+ key /\ In (key, module) entries)
  /\ (forall command,
        is_Some (Manager.commands this !! command)
        <-> exists key, In key (map fst entries) /\ command = "_" +:+ key).
Proof.
  unfold Manager.constructor.
  destruct (Manager.register entries ∅) as [commands|] eqn:Hreg; [|discriminate].
  intros [= <-]. cbn [Manager.commands].
  assert (forall command module,
            commands !! command = Some module ->
            exists key, command = "_" +:+ key /\ In (key, module) entries) as Horigin.
  { intros command module Hentry.
    destruct (register_origin _ _ _ Hreg _ _ Hentry) as [Hempty|Hfound]; [|exact Hfound].
    now rewrite lookup_empty in Hempty. }
  split; [exact Horigin|]. intros command. split.
  - intros [module Hentry]. destruct (Horigin _ _ Hentry) as (key & -> & Hin).
    exists key. split; [|reflexivity].
    apply in_map_iff. now exists (key, module).
  - intros (key & Hin & ->). exact (register_present _ _ _ _ Hreg Hin).
Qed.

Lemma lower_char_idempotent (c : ascii) :
  Js.lower_char (Js.lower_char c) = Js.lower_char c.
Proof. destruct c as [[] [] [] [] [] [] [] []]; reflexivity. Qed.

Lemma toLowerCase_idempotent (s : string) :
  Js.toLowerCase (Js.toLowerCase s) = Js.toLowerCase s.
Proof.
  induction s as [|c s IH]; simpl; [reflexivity|].
  now rewrite lower_char_idempotent, IH.
Qed.

Lemma toLowerCase_append (a b : string) :
  Js.toLowerCase (a +:+ b) = Js.toLowerCase a +:+ Js.toLowerCase b.
Proof. induction a as [|c a IH]; simpl; [reflexivity | now rewrite IH]. Qed.

(** The split loses nothing: a text with a space is the token before its
    first space, that space and the argument text.  The key is the
    underscore and the token, and the underscore and the whole text when the
    text begins with the space; [extractCommand] gives the same in lower
    case. *)
Theorem split_loses_nothing (this : Message.t) :
  let raw := SlackMessage.text (Message.messageObject this) in
  Js.has_space raw = true ->
  exists tok,
    Js.has_space tok = false
    /\ raw = tok +:+ " " +:+ Manager.text_of raw
    /\ Manager.command_of raw = "_" +:+ Js.or_else tok raw
    /\ snd (Message.extractCommand this)
       = ("_" +:+ Js.toLowerCase (Js.or_else tok raw), Manager.text_of raw).
Proof.
  cbv zeta. intros Hspace.
  destruct (first_space_decompose _ Hspace) as (tok & rest & Htok & Hraw).
  exists tok. unfold Message.extractCommand. cbn [snd]. rewrite Hraw.
  destruct (locals_first_space tok rest Htok) as [Hcommand Hrest].
  rewrite Hrest, Hcommand. repeat split; try assumption.
  destruct (split_first_space tok rest Htok) as (-> & -> & ->).
  pose proof (strlen_nonneg tok).
  now destruct (Z.eqb_spec (Js.strlen tok) (-1)); [lia|].
Qed.

(** [Message.throw] shows the message of a LeakableBotError only: two
    errors of one name that is not LeakableBotError get the same text, on
    the channel of the message and behind the mention of its user. *)
Theorem throw_shows_only_domain_messages (this : Message.t) (e1 e2 : JsError) :
  name e1 = name e2 -> name e1 <> "LeakableBotError" ->
  Message.throw this e1 = Message.throw this e2
  /\ snd (Message.throw this e1) = SlackMessage.channel (Message.messageObject this)
  /\ String.prefix ("<@" +:+ Message.user this +:+ ">,") (fst (Message.throw this e1)) = true.
Proof.
  intros Hname Hother. unfold Message.throw. rewrite <- Hname. cbn [fst snd].
  destruct (String.eqb_spec (name e1) "LeakableBotError") as [|_]; [contradiction|].
  split; [reflexivity|]. split; [reflexivity|].
  rewrite <- !append_assoc. apply prefix_append.
Qed.

(** After [extractCommand], [throw] answers an error named TypeError by
    naming the extracted key, underscore included, as the command that does
    not exist. *)
Theorem throw_names_the_extracted_key (this : Message.t) (error : JsError) :
  name error = "TypeError" ->
  fst (Message.throw (fst (Message.extractCommand this)) error)
  = "<@" +:+ Message.user this +:+ ">,"
    +:+ Js.toLowerCase ("<@" +:+ Message.user this +:+ ">, command '")
    +:+ fst (snd (Message.extractCommand this)) +:+ "' does not exist.".
Proof.
  intros Hname. unfold Message.throw. rewrite Hname. cbn [String.eqb Ascii.eqb Bool.eqb fst].
  unfold Message.extractCommand. cbn [fst snd Message.user Message.command].
  rewrite <- !append_assoc, !toLowerCase_append, toLowerCase_idempotent.
  rewrite !append_assoc. reflexivity.
Qed.

End Registry.

(** ** Further concrete runs *)
Section FurtherRuns.

Lemma builtin_failure_witness :
  Manager.store (Manager.builtin BStart Sample.manager "again" "U1" "D1" Sample.started)
  = Manager.store Sample.started.
Proof.
  apply (builtin_failure_keeps_store BStart Sample.manager "again" "U1" "D1" Sample.started
           (fst (Manager.builtin_try BStart Sample.manager "again" "U1" "D1" Sample.started))
           (LeakableBotError "SessionAlreadyOpen")).
  vm_compute. reflexivity.
Defined.

Lemma start_saves_witness :
  Manager.store (Manager._start Sample.manager "design" "U1" "D1" Sample.world)
  = [ {| Workday.slackId := "U1"; Workday.begin := 10; Workday.end_ := None;
         Workday.intervals :=
           [ {| Interval.begin := 10; Interval.end_ := None;
                Interval.description := "design" |} ] |} ].
Proof.
  apply (start_saves_one_open_interval Sample.manager "design" "U1" "D1" Sample.world);
    reflexivity.
Defined.

Lemma no_workday_witness :
  @Manager.builtin unit Sample.nobody BEnd Sample.lonely "" "U1" "D1" Sample.nowhere
  = Manager.send Sample.lonely "<@U1>, problems captain!" "D1"
      (Manager.log (AwaitGetLastWorkdayByUser "U1") Sample.nowhere).
Proof.
  apply (@no_workday_is_an_internal_error unit Sample.nobody BEnd Sample.lonely "" "U1" "D1"
           Sample.nowhere).
  - discriminate.
  - reflexivity.
Defined.

Lemma dispatch_reaches_witness :
  Manager.dispatchCommand Sample.manager (Sample.message "break lunch" "U1" "D1")
    Sample.started
  = Manager._break Sample.manager "lunch" "U1" "D1"
      (Manager.log (SelfLookup "_break" (Some (Handler BBreak))) Sample.started).
Proof.
  apply (dispatch_reaches_builtin BBreak Sample.manager
           (Sample.message "break lunch" "U1" "D1") Sample.started "lunch").
  - reflexivity.
  - left. reflexivity.
Defined.

Lemma inherited_names_witness :
  Manager.dispatchCommand Sample.manager (Sample.message "_defineGetter__ x" "U1" "D1")
    Sample.world
  = Manager.send Sample.manager "<@U1>, problems captain!" "D1" Sample.world.
Proof.
  apply (inherited_names_are_refused Sample.manager
           (Sample.message "_defineGetter__ x" "U1" "D1") Sample.world Method);
    vm_compute; reflexivity.
Defined.

Lemma unknown_command_witness :
  Manager.store
    (Manager.dispatchCommand Sample.manager (Sample.message "Start design" "U1" "D1")
       Sample.world)
  = Manager.store Sample.world.
Proof.
  apply (unknown_command_is_answered_once Sample.manager
           (Sample.message "Start design" "U1" "D1") Sample.world);
    vm_compute; reflexivity.
Defined.

Lemma blank_message_witness :
  Manager.listen Sample.manager (Sample.message "   " "U1" "D1") Sample.world
  = Manager.send Sample.manager "<@U1>, problems captain!" "D1"
      (Manager.log (SelfLookup "_" None) Sample.world).
Proof.
  apply (blank_message_is_refused Sample.manager (Sample.message "   " "U1" "D1")
           Sample.world); reflexivity.
Defined.

Lemma listen_reaches_witness :
  Manager.listen Sample.manager (Sample.message "<@B0> start design" "U1" "D1")
    Sample.world
  = Manager._start Sample.manager "design" "U1" "D1"
      (Manager.log (SelfLookup "_start" (Some (Handler BStart))) Sample.world).
Proof.
  apply (listen_reaches_builtin BStart Sample.manager
           (Sample.message "<@B0> start design" "U1" "D1") Sample.world "design").
  - reflexivity.
  - reflexivity.
  - reflexivity.
  - right. reflexivity.
  - reflexivity.
Defined.

Lemma second_space_witness :
  Manager.listen Sample.manager (Sample.message "<@B0>  start design" "U1" "D1")
    Sample.world
  = Manager.send Sample.manager "<@U1>, problems captain!" "D1"
      (Manager.log (SelfLookup "_ start design" None) Sample.world).
Proof.
  apply (second_space_after_mention_breaks_the_command Sample.manager
           (Sample.message "<@B0>  start design" "U1" "D1") Sample.world "start design");
    reflexivity.
Defined.

Lemma rejected_promise_witness :
  Manager.trace
    (Manager.dispatchCommand Sample.deferring (Sample.message "ping" "U1" "D1")
       Sample.world)
  = [ ModuleDispatch "_ping" (Sample.message "" "U1" "D1") "U1" ].
Proof.
  rewrite (rejected_promise_is_not_caught Sample.deferring
             (Sample.message "ping" "U1" "D1") Sample.world
             (Sample.rejecting Sample.refusal)
             (fun msg user st =>
                {| CommandModule.store_after := st; CommandModule.sent := [];
                   CommandModule.settled := CommandModule.Rejected Sample.refusal |})
             Sample.refusal).
  - reflexivity.
  - vm_compute. reflexivity.
  - reflexivity.
  - reflexivity.
Defined.

Lemma constructor_registers_witness :
  exists key, "_start" = "_" +:+ key /\ In (key, Sample.echo) [("start", Sample.echo)].
Proof.
  apply (proj1 (constructor_registers_exactly Sample.bot [("start", Sample.echo)]
                  Sample.shadowing eq_refl) "_start" Sample.echo).
  vm_compute. reflexivity.
Defined.

Lemma split_loses_nothing_witness :
  exists tok,
    Js.has_space tok = false
    /\ " Start  design" = tok +:+ " " +:+ Manager.text_of " Start  design"
    /\ Manager.command_of " Start  design" = "_" +:+ Js.or_else tok " Start  design"
    /\ snd (Message.extractCommand
              (Message.constructor (Sample.message " Start  design" "U1" "D1")))
       = ("_" +:+ Js.toLowerCase (Js.or_else tok " Start  design"),
          Manager.text_of " Start  design").
Proof.
  apply (split_loses_nothing
           (Message.constructor (Sample.message " Start  design" "U1" "D1"))).
  reflexivity.
Defined.

Lemma throw_shows_witness :
  Message.throw (Message.constructor (Sample.message "end" "U1" "D1"))
    (Error "ECONNREFUSED 127.0.0.1:27017")
  = Message.throw (Message.constructor (Sample.message "end" "U1" "D1"))
      (Error "E11000 duplicate key").
Proof.
  apply (throw_shows_only_domain_messages
           (Message.constructor (Sample.message "end" "U1" "D1"))
           (Error "ECONNREFUSED 127.0.0.1:27017") (Error "E11000 duplicate key")).
  - reflexivity.
  - discriminate.
Defined.

Lemma throw_names_witness :
  fst (Message.throw
         (fst (Message.extractCommand
                 (Message.constructor (Sample.message "Frobnicate now" "U1" "D1"))))
         (TypeError "this[command] is not a function"))
  = "<@U1>,<@u1>, command '_frobnicate' does not exist.".
Proof.
  apply (throw_names_the_extracted_key
           (Message.constructor (Sample.message "Frobnicate now" "U1" "D1"))
           (TypeError "this[command] is not a function")).
  reflexivity.
Defined.

End FurtherRuns.

(** ** Replies to errors, and registration under any name *)
Section Replies.
Context {Store : Type} `{!WorkdayModel Store}.
Implicit Types (w : Manager.World Store) (this : Manager.t Store)
  (msg : SlackMessage.t).

(** C2, as amended: an error thrown inside a [try] block of the Manager
    (by the lookup of [dispatchCommand], by the call of a module, or inside
    a built-in handler) is answered by exactly one message on the channel of
    the command, and nothing else changes; the message is the mention of the
    sender and, for an error named LeakableBotError, the message of the
    error as it is, for any other error the fixed text.  [Message.throw] has
    a rendering of its own: behind the mention it takes text from the error
    only when it is named LeakableBotError, answers an error named TypeError
    by the command that does not exist, and any other error by one fixed
    text. *)
Theorem caught_error_reply this (err : JsError) (user channel : string) w w' :
  Manager.Caught this err user channel w w' ->
  (exists reply,
     Manager.trace w'
     = Manager.trace w ++ [SendMessage reply (target (Manager.bot this) channel)]
     /\ Manager.store w' = Manager.store w
     /\ Manager.clock w' = Manager.clock w
     /\ (name err = "LeakableBotError" -> reply = "<@" +:+ user +:+ ">, " +:+ message err)
     /\ (name err <> "LeakableBotError" -> reply = "<@" +:+ user +:+ ">, problems captain!"))
  /\ (forall (m : Message.t) (error : JsError),
        snd (Message.throw m error) = SlackMessage.channel (Message.messageObject m)
        /\ String.prefix ("<@" +:+ Message.user m +:+ ">,") (fst (Message.throw m error)) = true
        /\ (name error = "LeakableBotError" ->
            fst (Message.throw m error)
            = "<@" +:+ Message.user m +:+ ">,"
              +:+ Js.toLowerCase ("<@" +:+ Message.user m +:+ ">, " +:+ message error))
        /\ (name error = "TypeError" ->
            fst (Message.throw m error)
            = "<@" +:+ Message.user m +:+ ">,"
              +:+ Js.toLowerCase ("<@" +:+ Message.user m +:+ ">, command '"
                                  +:+ Message.command m +:+ "' does not exist."))
        /\ (name error <> "TypeError" -> name error <> "LeakableBotError" ->
            fst (Message.throw m error) = "<@" +:+ Message.user m +:+ ">,problems captain!")
        /\ (forall error' : JsError,
              name error' = name error -> name error <> "LeakableBotError" ->
              Message.throw m error' = Message.throw m error)).
Proof.
  intros Hcaught. split.
  - exists ("<@" +:+ user +:+ ">, " +:+ Manager.errorMessage err).
    assert (w' = Manager.catch_reply this user channel err w) as ->.
    { destruct Hcaught as [msg w0 w1 err Hrun | b text slackId channel w0 w1 err Hrun].
      - unfold Manager.dispatchCommand, Manager.try_catch. now rewrite Hrun.
      - rewrite builtin_unfold. unfold Manager.try_catch. now rewrite Hrun. }
    split; [reflexivity|]. split; [reflexivity|]. split; [reflexivity|].
    unfold Manager.errorMessage.
    destruct (String.eqb_spec (name err) "LeakableBotError");
      split; intros; first [reflexivity | contradiction].
  - intros m error. split; [reflexivity|]. split.
    { unfold Message.throw. cbn [fst]. rewrite <- !append_assoc. apply prefix_append. }
    split; [apply throw_LeakableBotError|]. split; [apply throw_TypeError|].
    split; [apply throw_other|].
    intros error' Hname Hother. unfold Message.throw. rewrite Hname.
    now destruct (String.eqb_spec (name error) "LeakableBotError").
Qed.

(** C9, as amended: the constructor looks at no name.  A collection whose
    modules all have [dispatchCommand] is accepted whatever its keys are,
    and each module is the entry under the underscore and its key.  A
    message whose command key is one of them is handed to that module: the
    run is the call of the module's [dispatchCommand] on the argument text,
    with the reply of the [catch] block when it throws, and no self-lookup
    is made, also when the key is the word of a built-in handler. *)
Theorem constructor_accepts_any_names (bot : Bot.t)
    (entries : list (string * CommandModule.t Store)) :
  Forall (fun entry => CommandModule.capable (snd entry)) entries ->
  NoDup (map fst entries) ->
  exists this,
    Manager.constructor bot (Some entries) = Normal this
    /\ Manager.bot this = bot
    /\ (forall key module,
          In (key, module) entries -> Manager.commands this !! ("_" +:+ key) = Some module)
    /\ (forall key module handler msg w,
          In (key, module) entries ->
          CommandModule.dispatchCommand module = Some handler ->
          Manager.command_of (SlackMessage.text msg) = "_" +:+ key ->
          let msg' := SlackMessage.with_text msg (Manager.text_of (SlackMessage.text msg)) in
          let user := SlackMessage.user msg in
          let out := handler msg' user (Manager.store w) in
          let called :=
            Manager.log_all
              (map (fun m => SendMessage (fst m) (snd m)) (CommandModule.sent out))
              (Manager.set_store (CommandModule.store_after out)
                 (Manager.log (ModuleDispatch ("_" +:+ key) msg' user) w)) in
          Manager.dispatchCommand this msg w
          = match CommandModule.settled out with
            | CommandModule.Thrown err =>
                Manager.catch_reply this user (SlackMessage.channel msg) err called
            | _ => called
            end
          /\ Manager.grows not_lookup w (Manager.dispatchCommand this msg w)).
Proof.
  intros Hall Hkeys. destruct (register_succeeds entries ∅ Hall) as [commands Hreg].
  exists {| Manager.bot := bot; Manager.commands := commands |}.
  split; [unfold Manager.constructor; now rewrite Hreg|]. split; [reflexivity|].
  assert (forall key module,
            In (key, module) entries -> commands !! ("_" +:+ key) = Some module) as Hentries
    by (intros key module Hin; now apply (register_enters _ _ _ _ _ Hreg)).
  split; [exact Hentries|].
  intros key module handler msg w Hin Hhandler Hkey. cbv zeta.
  pose proof (Hentries key module Hin) as Hentry. split.
  - unfold Manager.dispatchCommand, Manager.try_catch, Manager.dispatch_try,
      Manager.commands_get. cbn [Manager.commands].
    rewrite Hkey, Hentry. unfold Manager.call_module.
    rewrite Hhandler. cbv zeta. simpl SlackMessage.user.
    now destruct (CommandModule.settled _).
  - unfold Manager.dispatchCommand. apply grows_try_catch.
    + unfold Manager.dispatch_try, Manager.commands_get. cbn [Manager.commands].
      rewrite Hkey, Hentry. apply act_grows_call_module.
    + intros. now apply grows_catch_reply.
Qed.

End Replies.

(** ** Runs for the replies and the registration *)
Section ReplyRuns.

Lemma caught_error_reply_witness :
  exists reply,
    Manager.trace
      (Manager.dispatchCommand Sample.guarded (Sample.message "ping now" "U1" "D1")
         Sample.world)
    = Manager.trace
        (fst (Manager.dispatch_try Sample.guarded (Sample.message "ping now" "U1" "D1")
                Sample.world))
      ++ [SendMessage reply (target (Manager.bot Sample.guarded) "D1")]
    /\ reply = "<@U1>, Not today".
Proof.
  destruct (caught_error_reply Sample.guarded Sample.refusal "U1" "D1"
              (fst (Manager.dispatch_try Sample.guarded
                      (Sample.message "ping now" "U1" "D1") Sample.world))
              (Manager.dispatchCommand Sample.guarded
                 (Sample.message "ping now" "U1" "D1") Sample.world))
    as [(reply & Htrace & _ & _ & Hdomain & _) _].
  - apply (Manager.caught_dispatching Sample.guarded
             (Sample.message "ping now" "U1" "D1") Sample.world).
    vm_compute. reflexivity.
  - exists reply. split; [exact Htrace | apply Hdomain; reflexivity].
Defined.

(** Error rendering as the specification words it fails in three places:
    [Message.throw] has no one text for the errors that are not domain
    errors, since it names the command for a TypeError; the text it makes of
    a domain error does not hold the message as written; and a domain error
    a module raises through a rejected promise gets no reply. *)
Lemma error_rendering_is_not_uniform :
  ~ (exists generic : string -> string,
       forall (m : Message.t) (error : JsError),
         name error <> "LeakableBotError" ->
         fst (Message.throw m error) = generic (Message.user m))
  /\ Js.indexOf "Not today" (fst (Message.throw (Sample.asked "_end") Sample.refusal)) = -1
  /\ Manager.trace
       (Manager.dispatchCommand Sample.deferring (Sample.message "ping" "U1" "D1")
          Sample.world)
     = [ ModuleDispatch "_ping" (Sample.message "" "U1" "D1") "U1" ].
Proof.
  split; [|split; vm_compute; reflexivity].
  intros [generic Hgeneric].
  pose proof (Hgeneric (Sample.asked "_end") (TypeError "not a function")) as Hend.
  pose proof (Hgeneric (Sample.asked "_stop") (TypeError "not a function")) as Hstop.
  assert (fst (Message.throw (Sample.asked "_end") (TypeError "not a function"))
          = fst (Message.throw (Sample.asked "_stop") (TypeError "not a function")))
    as Hsame.
  { rewrite Hend, Hstop by discriminate. reflexivity. }
  vm_compute in Hsame. discriminate Hsame.
Qed.

(** C8: a module whose [dispatchCommand] is there but is no function
    passes the constructor, which only tests that the property is truthy;
    the failure comes when the command is dispatched, as a TypeError that
    the sender sees as an internal error.  A module without the property is
    refused by the constructor. *)
Theorem non_function_passes_the_constructor :
  Manager.constructor Sample.bot (Some [("ping", Sample.misbuilt)]) = Normal Sample.trusting
  /\ Manager.dispatchCommand Sample.trusting (Sample.message "ping now" "U1" "D1")
       Sample.world
     = {| Manager.trace :=
            [ ModuleDispatch "_ping" (Sample.message "now" "U1" "D1") "U1";
              SendMessage "<@U1>, problems captain!" "D1" ];
          Manager.store := []; Manager.clock := 10 |}
  /\ Manager.constructor Sample.bot (Some [("ping", Sample.bare)])
     = Throw (Error "Module does not have dispatchCommand() method.").
Proof. repeat split; vm_compute; reflexivity. Qed.

Lemma constructor_accepts_witness :
  exists this,
    Manager.constructor Sample.bot (Some [("start", Sample.echo)]) = Normal this
    /\ Manager.commands this !! ("_" +:+ "start") = Some Sample.echo
    /\ Manager.trace
         (Manager.dispatchCommand this (Sample.message "start design" "U1" "D1")
            Sample.world)
       = [ ModuleDispatch "_start" (Sample.message "design" "U1" "D1") "U1";
           SendMessage "design" "D1" ].
Proof.
  destruct (constructor_accepts_any_names Sample.bot [("start", Sample.echo)])
    as (this & Hnew & _ & Hentries & Hrun).
  - constructor; [vm_compute; eauto | constructor].
  - apply NoDup_singleton.
  - exists this. split; [exact Hnew|]. split.
    + apply Hentries. left. reflexivity.
    + destruct (Hrun "start" Sample.echo
                  (fun msg user st =>
                     {| CommandModule.store_after := st;
                        CommandModule.sent :=
                          [ (SlackMessage.text msg, SlackMessage.channel msg) ];
                        CommandModule.settled := CommandModule.Returned |})
                  (Sample.message "start design" "U1" "D1") Sample.world)
        as [Hequation _].
      * left. reflexivity.
      * reflexivity.
      * reflexivity.
      * rewrite Hequation. reflexivity.
Defined.

End ReplyRuns.
